(** * Insurance-claims audit API: shallow embedding and verified properties

    The development follows the three source files of the service:
    - [models/cosmos_models.py]: the request and response models and the
      audit record with its constructor and its (de)serialisation
      ([AuditRecordRequest], [AuditRecordResponse], [CosmosAuditRecord]);
    - [cosmos_database.py]: the client and the connectivity probe
      ([Database]);
    - [main.py]: customer-id derivation ([Derivation]) and the HTTP handlers
      ([Api]).
    The database engine is external; [Cosmos] gives the interface the
    handlers use and a reference container.

    The values the service stores and returns are modelled as [string]
    (sequences of 8-bit characters), dictionaries as [gmap string _],
    exceptions as an explicit result type, and the wall clock as explicit
    state.  The customer-id derivation, the one place where the code looks
    inside a string, is also modelled on Unicode code points
    ([PyUnicode]). *)

From Stdlib Require Import String Ascii List Sorted Permutation Lia DecimalString DecimalNat.
From stdpp Require Import gmap strings list fin_maps sorting.

Local Open Scope stdpp_scope.

(** ** Exceptions and results *)

(** The exception classes that the modelled code raises or catches.
    [Exception] stands for any other subclass of Python's [Exception] and
    carries the text that [str(e)] yields. *)
Inductive pyexn : Type :=
  | CosmosHttpResponseError (status_code : nat) (message : string)
  | HTTPException (status_code : nat) (detail : string)
  | KeyError (key : string)
  | IndexError (text : string)
  | ValueError (text : string)
  | Exception (text : string).

Inductive result (A : Type) : Type :=
  | Ok (a : A)
  | Raise (e : pyexn).
Arguments Ok {A} a.
Arguments Raise {A} e.

#[global] Instance pyexn_eq_dec : EqDecision pyexn.
Proof. solve_decision. Defined.

#[global] Instance result_eq_dec {A : Type} `{EqDecision A} : EqDecision (result A).
Proof. solve_decision. Defined.

#[global] Instance result_ret : MRet result := fun _ a => Ok a.
#[global] Instance result_bind : MBind result := fun _ _ k r =>
  match r with
  | Ok a => k a
  | Raise e => Raise e
  end.

(** ** The fragment of Python's [str] and [list] that the service uses *)
Module Py.

(** [str(e)] for the exceptions above; a [KeyError] prints the [repr] of
    its key, Starlette's [HTTPException] prints status and detail. *)
Definition str (e : pyexn) : string :=
  match e with
  | CosmosHttpResponseError _ m => m
  | HTTPException sc d => NilEmpty.string_of_uint (Nat.to_uint sc) +:+ ": " +:+ d
  | KeyError k => "'" +:+ k +:+ "'"
  | IndexError t => t
  | ValueError t => t
  | Exception t => t
  end.

Definition upper_char (c : ascii) : ascii :=
  let n := nat_of_ascii c in
  if (97 <=? n)%nat && (n <=? 122)%nat then ascii_of_nat (n - 32) else c.

(** [s.upper()] *)
Fixpoint upper (s : string) : string :=
  match s with
  | EmptyString => EmptyString
  | String c s' => String (upper_char c) (upper s')
  end.

(** [sub in s] *)
Fixpoint contains (sub s : string) : bool :=
  String.prefix sub s ||
  match s with
  | EmptyString => false
  | String _ s' => contains sub s'
  end.

(** [s[:n]] for a non-negative [n] *)
Definition slice_to (n : nat) (s : string) : string := String.substring 0 n s.

(** Left-to-right scan of [s.split(sep)]: [cur] is the piece being
    collected, [skip] counts the characters of a separator occurrence that
    are still to be consumed. *)
Fixpoint split_from (sep : string) (skip : nat) (cur s : string) : list string :=
  match s with
  | EmptyString => [cur]
  | String c s' =>
      match skip with
      | S k => split_from sep k cur s'
      | O =>
          if String.prefix sep s
          then cur :: split_from sep (String.length sep - 1) EmptyString s'
          else split_from sep 0 (cur +:+ String c EmptyString) s'
      end
  end.

(** [s.split(sep)]; an empty separator is a [ValueError]. *)
Definition split (sep s : string) : result (list string) :=
  if decide (sep = EmptyString) then Raise (ValueError "empty separator")
  else Ok (split_from sep 0 EmptyString s).

(** [l[i]] for a non-negative [i] *)
Definition index {A : Type} (l : list A) (i : nat) : result A :=
  match l !! i with
  | Some x => Ok x
  | None => Raise (IndexError "list index out of range")
  end.

End Py.

(** ** The wall clock *)
Module Clock.

(** The value of a [datetime] object. *)
Record datetime : Type := {
  year : nat; month : nat; day : nat;
  hour : nat; minute : nat; second : nat; microsecond : nat
}.

Definition digits (n : nat) : string := NilEmpty.string_of_uint (Nat.to_uint n).

Fixpoint zeros (k : nat) : string :=
  match k with
  | O => EmptyString
  | S k' => String "0" (zeros k')
  end.

(** Decimal numeral of [n], zero-padded on the left to [width]. *)
Definition zfill (width n : nat) : string :=
  zeros (width - String.length (digits n)) +:+ digits n.

(** [d.isoformat()]: the fraction is printed only when it is non-zero. *)
Definition isoformat (d : datetime) : string :=
  zfill 4 (year d) +:+ "-" +:+ zfill 2 (month d) +:+ "-" +:+ zfill 2 (day d) +:+ "T" +:+
  zfill 2 (hour d) +:+ ":" +:+ zfill 2 (minute d) +:+ ":" +:+ zfill 2 (second d) +:+
  (if (microsecond d =? 0)%nat then EmptyString else "." +:+ zfill 6 (microsecond d)).

(** [d.strftime("%Y%m%d%H%M%S")] (four-digit years). *)
Definition strftime_YmdHMS (d : datetime) : string :=
  zfill 4 (year d) +:+ zfill 2 (month d) +:+ zfill 2 (day d) +:+
  zfill 2 (hour d) +:+ zfill 2 (minute d) +:+ zfill 2 (second d).

(** The clock as state: [readings k] is what the [k]-th call of
    [datetime.utcnow()] returns, [reads] counts the calls made so far. *)
Record t : Type := { readings : nat -> datetime; reads : nat }.

Definition utcnow (clk : t) : datetime * t :=
  (readings clk (reads clk), {| readings := readings clk; reads := S (reads clk) |}).

End Clock.

(** ** [models/cosmos_models.py] *)

Module AuditRecordRequest.
Record t : Type := {
  claim_id : string;
  customer_name : string;
  process_name : string;
  process_status : string;
  process_details : string;
  agent_name : string
}.
End AuditRecordRequest.

Module AuditRecordResponse.
Record t : Type := {
  audit_id : string;
  claim_id : string;
  customer_id : string;
  customer_name : string;
  process_name : string;
  process_status : string;
  process_details : string;
  agent_name : string;
  timestamp : string;
  created_at : string;
  updated_at : string
}.

(** [response.dict()] *)
Definition dict (r : t) : gmap string string :=
  <["audit_id" := audit_id r]> (
  <["claim_id" := claim_id r]> (
  <["customer_id" := customer_id r]> (
  <["customer_name" := customer_name r]> (
  <["process_name" := process_name r]> (
  <["process_status" := process_status r]> (
  <["process_details" := process_details r]> (
  <["agent_name" := agent_name r]> (
  <["timestamp" := timestamp r]> (
  <["created_at" := created_at r]> (
  <["updated_at" := updated_at r]> ∅)))))))))).
End AuditRecordResponse.

Module CosmosAuditRecord.

(** The attributes of an instance, in the order [__init__] assigns them. *)
Record t : Type := {
  claim_id : string;
  customer_id : string;
  customer_name : string;
  process_name : string;
  process_status : string;
  process_details : string;
  agent_name : string;
  audit_id : string;
  timestamp : string;
  created_at : string;
  updated_at : string;
  id : string
}.

#[global] Instance t_eq_dec : EqDecision t.
Proof. solve_decision. Defined.

Definition _generate_audit_id (clk : Clock.t) : string * Clock.t :=
  let '(now, clk) := Clock.utcnow clk in
  ("AUD" +:+ Clock.strftime_YmdHMS now, clk).

(** [audit_id or self._generate_audit_id()]: [None] and the empty string
    are the falsy values of an [Optional[str]]. *)
Definition audit_id_or_generate (audit_id : option string) (clk : Clock.t)
  : string * Clock.t :=
  match audit_id with
  | Some a => if decide (a = EmptyString) then _generate_audit_id clk else (a, clk)
  | None => _generate_audit_id clk
  end.

Definition __init__
    (claim_id customer_id customer_name process_name process_status
     process_details agent_name : string) (audit_id : option string)
    (clk : Clock.t) : t * Clock.t :=
  let '(audit_id, clk) := audit_id_or_generate audit_id clk in
  let '(now, clk) := Clock.utcnow clk in
  let current_time := Clock.isoformat now +:+ "Z" in
  ({| claim_id := claim_id;
      customer_id := customer_id;
      customer_name := customer_name;
      process_name := process_name;
      process_status := process_status;
      process_details := process_details;
      agent_name := agent_name;
      audit_id := audit_id;
      timestamp := current_time;
      created_at := current_time;
      updated_at := current_time;
      id := customer_id +:+ "_" +:+ audit_id |}, clk).

Definition to_dict (self : t) : gmap string string :=
  <["id" := id self]> (
  <["audit_id" := audit_id self]> (
  <["claim_id" := claim_id self]> (
  <["customerId" := customer_id self]> (
  <["customer_name" := customer_name self]> (
  <["process_name" := process_name self]> (
  <["process_status" := process_status self]> (
  <["process_details" := process_details self]> (
  <["agent_name" := agent_name self]> (
  <["timestamp" := timestamp self]> (
  <["created_at" := created_at self]> (
  <["updated_at" := updated_at self]> (
  <["type" := "audit_record"]> ∅)))))))))))).

(** Stored documents are modelled with string values, which is what
    [to_dict] writes: every attribute of a record is a [str].  A document
    that holds another JSON value (a null, a number) can only come from a
    writer other than this service and is outside the model; what is stated
    about the success of the retrieval is stated for the documents
    [to_dict] writes. *)

(** [data[key]] *)
Definition getitem (data : gmap string string) (key : string) : result string :=
  match data !! key with
  | Some v => Ok v
  | None => Raise (KeyError key)
  end.

(** [data.get(key, dflt)] *)
Definition get (data : gmap string string) (key dflt : string) : string :=
  default dflt (data !! key).

Definition from_dict (data : gmap string string) (clk : Clock.t)
  : result t * Clock.t :=
  let args :=
    claim_id ← getitem data "claim_id";
    customer_id ← getitem data "customerId";
    customer_name ← getitem data "customer_name";
    process_name ← getitem data "process_name";
    process_status ← getitem data "process_status";
    process_details ← getitem data "process_details";
    agent_name ← getitem data "agent_name";
    audit_id ← getitem data "audit_id";
    mret (__init__ claim_id customer_id customer_name process_name
            process_status process_details agent_name (Some audit_id)) in
  match args with
  | Raise e => (Raise e, clk)
  | Ok construct =>
      let '(record, clk) := construct clk in
      (Ok {| claim_id := claim_id record;
             customer_id := customer_id record;
             customer_name := customer_name record;
             process_name := process_name record;
             process_status := process_status record;
             process_details := process_details record;
             agent_name := agent_name record;
             audit_id := audit_id record;
             timestamp := get data "timestamp" (timestamp record);
             created_at := get data "created_at" (created_at record);
             updated_at := get data "updated_at" (updated_at record);
             id := get data "id" (id record) |}, clk)
  end.

(** [AuditRecordResponse(...)]: the model validates eleven [str] fields,
    which cannot fail on the string attributes of a record. *)
Definition to_response_model (self : t) : AuditRecordResponse.t :=
  {| AuditRecordResponse.audit_id := audit_id self;
     AuditRecordResponse.claim_id := claim_id self;
     AuditRecordResponse.customer_id := customer_id self;
     AuditRecordResponse.customer_name := customer_name self;
     AuditRecordResponse.process_name := process_name self;
     AuditRecordResponse.process_status := process_status self;
     AuditRecordResponse.process_details := process_details self;
     AuditRecordResponse.agent_name := agent_name self;
     AuditRecordResponse.timestamp := timestamp self;
     AuditRecordResponse.created_at := created_at self;
     AuditRecordResponse.updated_at := updated_at self |}.

(** The fields that [from_dict] indexes; the others are read with [get]. *)
Definition required_fields : list string :=
  ["claim_id"; "customerId"; "customer_name"; "process_name";
   "process_status"; "process_details"; "agent_name"; "audit_id"].

(** A document that carries all of them. *)
Definition reconstructible (data : gmap string string) : Prop :=
  Forall (λ k, is_Some (data !! k)) required_fields.

#[global] Instance reconstructible_dec data : Decision (reconstructible data).
Proof. unfold reconstructible. apply _. Defined.

(** The attribute dictionary of an instance ([vars(self)]). *)
Definition vars (self : t) : gmap string string :=
  <["claim_id" := claim_id self]> (
  <["customer_id" := customer_id self]> (
  <["customer_name" := customer_name self]> (
  <["process_name" := process_name self]> (
  <["process_status" := process_status self]> (
  <["process_details" := process_details self]> (
  <["agent_name" := agent_name self]> (
  <["audit_id" := audit_id self]> (
  <["timestamp" := timestamp self]> (
  <["created_at" := created_at self]> (
  <["updated_at" := updated_at self]> (
  <["id" := id self]> ∅))))))))))).

(** The instances the program can build: by the constructor, or by
    [from_dict] (which runs the constructor and then overwrites the
    timestamps and the id from the document). *)
Inductive instance : t -> Prop :=
  | instance_init (a b c d e f g : string) (aid : option string) (clk : Clock.t) :
      instance (__init__ a b c d e f g aid clk).1
  | instance_from_dict data clk record clk' :
      from_dict data clk = (Ok record, clk') -> instance record.

End CosmosAuditRecord.

(** ** The storage collaborator *)
Module Cosmos.

Abbreviation document := (gmap string string).

(** What the service asks of a container: [create_item(body, ...)] and
    [list(query_items(query, parameters, partition_key, ...))].  [S] is
    the state of the store; either call may raise. *)
Record Container (S : Type) : Type := {
  create_item :
    forall (body : gmap string string) (enable_automatic_id_generation : bool),
      S -> result (gmap string string) * S;
  query_items :
    forall (query : string) (parameters : list (string * string))
           (partition_key : string) (enable_cross_partition_query : bool),
      S -> result (list (gmap string string)) * S
}.
Arguments create_item {S} _ _ _ _.
Arguments query_items {S} _ _ _ _ _ _.

(** *** A reference container

    The database engine behind [Container] is an external service and not
    part of the repository.  The definitions below give it a reference
    semantics: an in-memory container partitioned on [/customerId], each
    partition holding its documents in insertion order, with an
    interpreter for the query fragment
    [SELECT * FROM a WHERE a.f = @p AND ... ORDER BY a.g ASC|DESC]. *)

Record select : Type := {
  conditions : list (string * string);   (* field, parameter name *)
  order_by : option (string * bool)      (* field, ascending *)
}.

(** [alias.field] *)
Definition parse_path (alias tok : string) : option string :=
  match Py.split "." tok with
  | Ok [a; f] => if decide (a = alias) then Some f else None
  | _ => None
  end.

Fixpoint parse_conditions (alias : string) (toks : list string)
  : option (list (string * string) * list string) :=
  match toks with
  | path :: eq :: param :: rest =>
      if decide (eq = "=") then
        f ← parse_path alias path;
        match rest with
        | kw :: rest' =>
            if decide (kw = "AND") then
              '(cs, rest'') ← parse_conditions alias rest';
              Some ((f, param) :: cs, rest'')
            else Some ([(f, param)], rest)
        | [] => Some ([(f, param)], [])
        end
      else None
  | _ => None
  end.

Definition parse_order (alias : string) (toks : list string)
  : option (option (string * bool)) :=
  match toks with
  | [] => Some None
  | [o; b; path; dir] =>
      if decide (o = "ORDER" ∧ b = "BY") then
        f ← parse_path alias path;
        if decide (dir = "ASC") then Some (Some (f, true))
        else if decide (dir = "DESC") then Some (Some (f, false))
        else None
      else None
  | _ => None
  end.

Definition parse (query : string) : option select :=
  match Py.split " " query with
  | Ok (sel :: star :: from :: alias :: wh :: toks) =>
      if decide (sel = "SELECT" ∧ star = "*" ∧ from = "FROM" ∧ wh = "WHERE") then
        '(cs, rest) ← parse_conditions alias toks;
        ob ← parse_order alias rest;
        Some {| conditions := cs; order_by := ob |}
      else None
  | _ => None
  end.

(** [d.f = @p] holds when the field is defined and equals the value bound
    to the parameter. *)
Definition satisfies (parameters : list (string * string)) (d : document)
    (c : string * string) : bool :=
  match d !! c.1, (list_to_map parameters : gmap string string) !! c.2 with
  | Some v, Some w => bool_decide (v = w)
  | _, _ => false
  end.

Definition selected (parameters : list (string * string))
    (cs : list (string * string)) (d : document) : bool :=
  forallb (satisfies parameters d) cs.

(** Order on sort keys: an undefined field sorts before every string,
    strings sort by code point. *)
Definition key_leb (a b : option string) : bool :=
  match a, b with
  | None, _ => true
  | Some _, None => false
  | Some x, Some y => String.leb x y
  end.

Definition doc_leb (field : string) (ascending : bool) (d1 d2 : document) : bool :=
  if ascending then key_leb (d1 !! field) (d2 !! field)
  else key_leb (d2 !! field) (d1 !! field).

Fixpoint insert_sorted (leb : document -> document -> bool) (d : document)
    (l : list document) : list document :=
  match l with
  | [] => [d]
  | x :: l' => if leb d x then d :: l else x :: insert_sorted leb d l'
  end.

Fixpoint sort (leb : document -> document -> bool) (l : list document)
  : list document :=
  match l with
  | [] => []
  | d :: l' => insert_sorted leb d (sort leb l')
  end.

Definition run (q : select) (parameters : list (string * string))
    (docs : list document) : list document :=
  let hits := List.filter (selected parameters (conditions q)) docs in
  match order_by q with
  | None => hits
  | Some (f, asc) => sort (doc_leb f asc) hits
  end.

(** Partition key value ↦ documents of the partition, oldest first. *)
Abbreviation store := (gmap string (list (gmap string string))).

Definition partition (st : store) (pk : string) : list document :=
  default [] (st !! pk).

Definition has_id (i : string) (d : document) : bool :=
  bool_decide (d !! "id" = Some i).

(** Modelled from the spec: the storage collaborator's [createItem], which
    "fails with a conflict signal if [id] already exists" in the partition
    of the document. *)
Definition mem_create_item (body : document) (auto_id : bool) (st : store)
  : result document * store :=
  match body !! "customerId", body !! "id" with
  | Some pk, Some i =>
      if existsb (has_id i) (partition st pk) then
        (Raise (CosmosHttpResponseError 409
                  "Entity with the specified id already exists in the system."), st)
      else (Ok body, <[pk := partition st pk ++ [body]]> st)
  | _, _ =>
      (Raise (CosmosHttpResponseError 400
                "The input content is invalid because the required properties are missing."), st)
  end.

(** Modelled from the spec: the storage collaborator's [queryItems], which
    "produces a lazy sequence of matching documents restricted to one
    partition"; the query text is interpreted by [parse] and [run]. *)
Definition mem_query_items (query : string) (parameters : list (string * string))
    (partition_key : string) (cross : bool) (st : store)
  : result (list document) * store :=
  match parse query with
  | Some q => (Ok (run q parameters (partition st partition_key)), st)
  | None => (Raise (CosmosHttpResponseError 400 "Syntax error in query."), st)
  end.

(** Modelled from the spec: the storage collaborator as a whole. *)
Definition memory : Container store :=
  {| create_item := mem_create_item; query_items := mem_query_items |}.

End Cosmos.

(** ** [cosmos_database.py] *)
Module Database.

(** A Python value that is a string or [None]. *)
Inductive pyval : Type :=
  | PStr (s : string)
  | PNone.

#[global] Instance pyval_eq_dec : EqDecision pyval.
Proof. solve_decision. Defined.

(** [os.getenv] of the three settings. *)
Record Env : Type := {
  COSMOS_DB_ENDPOINT : option string;
  COSMOS_DB_KEY : option string;
  COSMOS_DB_DATABASE_NAME : option string;
  ENV : option string
}.

(** Outcomes of the SDK calls the client makes. *)
Record Sdk : Type := {
  CosmosClient : string -> string -> result unit;
  create_database_if_not_exists : string -> result unit;
  create_container_if_not_exists : string -> string -> result unit;
  database_read : result (gmap string string)
}.

Record CosmosDBClient : Type := {
  endpoint : string;
  key : string;
  database_name : string
}.

Definition truthy (v : option string) : bool :=
  match v with
  | Some s => negb (bool_decide (s = EmptyString))
  | None => false
  end.

(** [_setup_database]: the handler logs and re-raises. *)
Definition _setup_database (sdk : Sdk) (self : CosmosDBClient) : result unit :=
  _ ← create_database_if_not_exists sdk (database_name self);
  create_container_if_not_exists sdk "insurance_claims_audit" "/customerId".

Definition CosmosDBClient__init__ (env : Env) (sdk : Sdk) : result CosmosDBClient :=
  if forallb truthy
       [COSMOS_DB_ENDPOINT env; COSMOS_DB_KEY env; COSMOS_DB_DATABASE_NAME env]
  then
    let self := {| endpoint := default EmptyString (COSMOS_DB_ENDPOINT env);
                   key := default EmptyString (COSMOS_DB_KEY env);
                   database_name := default EmptyString (COSMOS_DB_DATABASE_NAME env) |} in
    _ ← CosmosClient sdk (endpoint self) (key self);
    _ ← _setup_database sdk self;
    Ok self
  else Raise (ValueError "Missing required Cosmos DB environment variables").

(** The module-level [_cosmos_client]. *)
Definition global : Type := option CosmosDBClient.

Definition get_cosmos_client (env : Env) (sdk : Sdk) (g : global)
  : result CosmosDBClient * global :=
  match g with
  | Some c => (Ok c, g)
  | None =>
      match CosmosDBClient__init__ env sdk with
      | Ok c => (Ok c, Some c)
      | Raise e => (Raise e, None)
      end
  end.

(** [d.get(k)] as a Python value *)
Definition get_value (d : gmap string string) (k : string) : pyval :=
  match d !! k with
  | Some v => PStr v
  | None => PNone
  end.

Definition check_cosmos_connection (env : Env) (sdk : Sdk) (g : global)
  : gmap string pyval * global :=
  let '(client, g) := get_cosmos_client env sdk g in
  match (_ ← client; database_read sdk) with
  | Ok db_properties =>
      (<["status" := PStr "connected"]> (
       <["database_name" := get_value db_properties "id"]> ∅), g)
  | Raise e =>
      (<["status" := PStr "disconnected"]> (
       <["error" := PStr (Py.str e)]> ∅), g)
  end.

End Database.

(** ** [main.py]: customer-id derivation *)
Module Derivation.

Definition extract_customer_id_from_claim (claim_id : string) : result string :=
  if Py.contains "_" claim_id then
    parts ← Py.split "_" claim_id;
    Py.index parts 0
  else if (6 <=? String.length claim_id)%nat then
    Ok (Py.upper (Py.slice_to 6 claim_id))
  else
    Ok ("CUST_" +:+ claim_id).

End Derivation.

(** ** [main.py]: the derivation on Unicode strings

    A Python [str] is a sequence of Unicode code points: [len] counts code
    points, [s[:6]] keeps six of them, and [str.upper] is the interpreter's
    Unicode case mapping.  The derivation is therefore modelled a second
    time, on lists of code points and with [str.upper] as a parameter;
    [Derivation] above is its restriction to byte strings with the ASCII
    case mapping (the agreement is proved among the properties), which is
    what the handlers below carry around. *)
Module PyUnicode.

(** The code points of an ASCII literal of the source text. *)
Definition literal (s : string) : list N := N_of_ascii <$> list_ascii_of_string s.

(** The code point of the underscore. *)
Definition underscore : N := 95.

(** [s.startswith(sub)] *)
Fixpoint startswith (sub s : list N) : bool :=
  match sub, s with
  | [], _ => true
  | _ :: _, [] => false
  | a :: sub', b :: s' => bool_decide (a = b) && startswith sub' s'
  end.

(** [sub in s] *)
Fixpoint contains (sub s : list N) : bool :=
  startswith sub s ||
  match s with
  | [] => false
  | _ :: s' => contains sub s'
  end.

(** Left-to-right scan of [s.split(sep)], as [Py.split_from]. *)
Fixpoint split_from (sep : list N) (skip : nat) (cur s : list N) : list (list N) :=
  match s with
  | [] => [cur]
  | c :: s' =>
      match skip with
      | S k => split_from sep k cur s'
      | O =>
          if startswith sep s
          then cur :: split_from sep (length sep - 1) [] s'
          else split_from sep 0 (cur ++ [c]) s'
      end
  end.

(** [s.split(sep)]; an empty separator is a [ValueError]. *)
Definition split (sep s : list N) : result (list (list N)) :=
  if decide (sep = []) then Raise (ValueError "empty separator")
  else Ok (split_from sep 0 [] s).

Section Derivation.

(** Python's [str.upper].  It belongs to the interpreter, not to the
    repository, and is taken as a parameter: nothing is assumed of it (it
    maps [é] to [É] and lengthens [ß] to [SS]). *)
Variable upper : list N → list N.

Definition extract_customer_id_from_claim (claim_id : list N) : result (list N) :=
  if contains (literal "_") claim_id then
    parts ← split (literal "_") claim_id;
    Py.index parts 0
  else if (6 <=? length claim_id)%nat then
    Ok (upper (take 6 claim_id))
  else
    Ok (literal "CUST_" ++ claim_id).

End Derivation.

(** The ASCII case mapping on code points, an instance of the parameter
    that agrees with [str.upper] on ASCII strings. *)
Definition ascii_upper (s : list N) : list N :=
  (λ c, if bool_decide (97 ≤ c ≤ 122)%N then (c - 32)%N else c) <$> s.

End PyUnicode.


(** ** [main.py]: the handlers *)
Module Api.

Import Derivation.

Record created : Type := {
  message : string;
  record : gmap string string
}.

(** The [except] clauses of [create_audit_record]. *)
Definition create_handlers (e : pyexn) : pyexn :=
  match e with
  | CosmosHttpResponseError sc m =>
      if (sc =? 409)%nat
      then HTTPException 409 "Audit record already exists"
      else HTTPException 500 ("Database error: " +:+ m)
  | _ => HTTPException 500 ("Failed to create audit record: " +:+ Py.str e)
  end.

Definition create_audit_record {S : Type} (container : Cosmos.Container S)
    (record : AuditRecordRequest.t) (st : S) (clk : Clock.t)
  : result created * S * Clock.t :=
  match extract_customer_id_from_claim (AuditRecordRequest.claim_id record) with
  | Raise e => (Raise (create_handlers e), st, clk)
  | Ok customer_id =>
      let '(cosmos_record, clk) :=
        CosmosAuditRecord.__init__
          (AuditRecordRequest.claim_id record)
          customer_id
          (AuditRecordRequest.customer_name record)
          (AuditRecordRequest.process_name record)
          (AuditRecordRequest.process_status record)
          (AuditRecordRequest.process_details record)
          (AuditRecordRequest.agent_name record)
          None clk in
      let '(created_item, st) :=
        Cosmos.create_item container (CosmosAuditRecord.to_dict cosmos_record) false st in
      match created_item with
      | Raise e => (Raise (create_handlers e), st, clk)
      | Ok _ =>
          (Ok {| message := "Audit record created successfully";
                 record := AuditRecordResponse.dict
                             (CosmosAuditRecord.to_response_model cosmos_record) |},
           st, clk)
      end
  end.

(** The [except] clauses of [get_audit_records_by_customer]. *)
Definition get_handlers (e : pyexn) : pyexn :=
  match e with
  | HTTPException _ _ => e
  | CosmosHttpResponseError _ m => HTTPException 500 ("Database error: " +:+ m)
  | _ => HTTPException 500 ("Failed to retrieve audit records: " +:+ Py.str e)
  end.

(** The conversion loop: [audit_records] accumulates the projections. *)
Fixpoint convert (items : list (gmap string string))
    (audit_records : list AuditRecordResponse.t) (clk : Clock.t)
  : result (list AuditRecordResponse.t) * Clock.t :=
  match items with
  | [] => (Ok audit_records, clk)
  | item :: items' =>
      let '(cosmos_record, clk) := CosmosAuditRecord.from_dict item clk in
      match cosmos_record with
      | Raise e => (Raise e, clk)
      | Ok cosmos_record =>
          convert items'
            (audit_records ++ [CosmosAuditRecord.to_response_model cosmos_record]) clk
      end
  end.

(** The locals [query] and [parameters] of
    [get_audit_records_by_customer]. *)
Definition query : string :=
  "SELECT * FROM c WHERE c.customerId = @customer_id AND c.type = @type ORDER BY c.timestamp ASC".

Definition parameters (customer_id : string) : list (string * string) :=
  [("@customer_id", customer_id); ("@type", "audit_record")].

Definition get_audit_records_by_customer {S : Type} (container : Cosmos.Container S)
    (customer_id : string) (st : S) (clk : Clock.t)
  : result (list (gmap string string)) * S * Clock.t :=
  let '(items, st) :=
    Cosmos.query_items container query (parameters customer_id)
      customer_id false st in
  match items with
  | Raise e => (Raise (get_handlers e), st, clk)
  | Ok [] =>
      (Raise (get_handlers
                (HTTPException 404
                   ("No audit records found for customer: " +:+ customer_id))), st, clk)
  | Ok items =>
      let '(audit_records, clk) := convert items [] clk in
      match audit_records with
      | Raise e => (Raise (get_handlers e), st, clk)
      | Ok audit_records => (Ok (AuditRecordResponse.dict <$> audit_records), st, clk)
      end
  end.

Import Database.

(** [d[k]] on the probe's status dictionary *)
Definition status_getitem (d : gmap string pyval) (k : string) : result pyval :=
  match d !! k with
  | Some v => Ok v
  | None => Raise (KeyError k)
  end.

(** [d.get(k)] *)
Definition status_get (d : gmap string pyval) (k : string) : pyval :=
  default PNone (d !! k).

Definition timestamp_now (clk : Clock.t) : pyval * Clock.t :=
  let '(now, clk) := Clock.utcnow clk in
  (PStr (Clock.isoformat now +:+ "Z"), clk).

Definition health_check (env : Env) (sdk : Sdk) (g : global) (clk : Clock.t)
  : gmap string pyval * global * Clock.t :=
  let '(cosmos_status, g) := check_cosmos_connection env sdk g in
  let failed (e : pyexn) (clk : Clock.t) :=
    let '(ts, clk) := timestamp_now clk in
    (<["status" := PStr "unhealthy"]> (
     <["timestamp" := ts]> (
     <["database" := PStr "error"]> (
     <["error" := PStr (Py.str e)]> ∅))), g, clk) in
  match status_getitem cosmos_status "status" with
  | Raise e => failed e clk
  | Ok status =>
      let '(ts, clk) := timestamp_now clk in
      match status_getitem cosmos_status "status" with
      | Raise e => failed e clk
      | Ok database =>
          (<["status" := PStr (if decide (status = PStr "connected")
                               then "healthy" else "unhealthy")]> (
           <["timestamp" := ts]> (
           <["database" := database]> (
           <["database_name" := status_get cosmos_status "database_name"]> (
           <["environment" := PStr (default "production" (ENV env))]> ∅)))), g, clk)
      end
  end.

End Api.

(** ** A concrete scenario used to exercise the definitions *)
Module Scenario.

(** A clock that advances one second per reading, starting at
    2024-03-07 09:05:00 UTC. *)
Definition clk0 : Clock.t :=
  {| Clock.readings := fun k =>
       {| Clock.year := 2024; Clock.month := 3; Clock.day := 7;
          Clock.hour := 9; Clock.minute := 5; Clock.second := k;
          Clock.microsecond := 0 |};
     Clock.reads := 0 |}.

(** A clock stuck within one second. *)
Definition frozen : Clock.t :=
  {| Clock.readings := fun k =>
       {| Clock.year := 2024; Clock.month := 3; Clock.day := 7;
          Clock.hour := 9; Clock.minute := 5; Clock.second := 0;
          Clock.microsecond := k |};
     Clock.reads := 0 |}.

(** A clock whose readings fall within the second 09:05:01 of that day,
    250 microseconds and more after its start. *)
Definition late : Clock.t :=
  {| Clock.readings := fun k =>
       {| Clock.year := 2024; Clock.month := 3; Clock.day := 7;
          Clock.hour := 9; Clock.minute := 5; Clock.second := 1;
          Clock.microsecond := 250 + k |};
     Clock.reads := 0 |}.

Definition request : AuditRecordRequest.t :=
  {| AuditRecordRequest.claim_id := "CUST1_001";
     AuditRecordRequest.customer_name := "Ann";
     AuditRecordRequest.process_name := "intake";
     AuditRecordRequest.process_status := "pending";
     AuditRecordRequest.process_details := "received";
     AuditRecordRequest.agent_name := "bot" |}.

Definition event : CosmosAuditRecord.t :=
  (CosmosAuditRecord.__init__ "CUST1_001" "CUST1" "Ann" "intake" "pending"
     "received" "bot" None clk0).1.

(** The record built by a create request for [request] on the frozen
    clock. *)
Definition event_frozen : CosmosAuditRecord.t :=
  (CosmosAuditRecord.__init__ "CUST1_001" "CUST1" "Ann" "intake" "pending"
     "received" "bot" None frozen).1.

(** The state after one successful create on an empty store. *)
Definition after_first : result Api.created * Cosmos.store * Clock.t :=
  Api.create_audit_record Cosmos.memory request ∅ frozen.

Definition st1 : Cosmos.store := after_first.1.2.
Definition clk1 : Clock.t := after_first.2.

(** Three records of one customer, created one after the other on the
    advancing clock, and a store holding them in a different order
    (besides a record of another customer and a document of another
    type). *)
Definition build (claim customer : string) (clk : Clock.t)
  : CosmosAuditRecord.t * Clock.t :=
  CosmosAuditRecord.__init__ claim customer "Ann" "intake" "pending"
    "received" "bot" None clk.

Definition e1 : CosmosAuditRecord.t := (build "CUST1_001" "CUST1" clk0).1.
Definition e2 : CosmosAuditRecord.t :=
  (build "CUST1_002" "CUST1" (build "CUST1_001" "CUST1" clk0).2).1.
Definition e3 : CosmosAuditRecord.t :=
  (build "CUST1_003" "CUST1"
     (build "CUST1_002" "CUST1" (build "CUST1_001" "CUST1" clk0).2).2).1.
Definition other : CosmosAuditRecord.t := (build "CUST2_001" "CUST2" frozen).1.

Definition shuffled : Cosmos.store :=
  <["CUST1" := [CosmosAuditRecord.to_dict e3;
                <["type" := "note"]> (CosmosAuditRecord.to_dict e2);
                CosmosAuditRecord.to_dict e1;
                CosmosAuditRecord.to_dict e2]]>
  (<["CUST2" := [CosmosAuditRecord.to_dict other]]> ∅).

(** A deployment whose endpoint setting is missing, and an SDK whose
    calls all succeed. *)
Definition no_endpoint : Database.Env :=
  {| Database.COSMOS_DB_ENDPOINT := None;
     Database.COSMOS_DB_KEY := Some "secret";
     Database.COSMOS_DB_DATABASE_NAME := Some "claims";
     Database.ENV := None |}.

Definition configured : Database.Env :=
  {| Database.COSMOS_DB_ENDPOINT := Some "https://example.documents.azure.com";
     Database.COSMOS_DB_KEY := Some "secret";
     Database.COSMOS_DB_DATABASE_NAME := Some "claims";
     Database.ENV := Some "dev" |}.

Definition sdk_ok : Database.Sdk :=
  {| Database.CosmosClient := fun _ _ => Ok ();
     Database.create_database_if_not_exists := fun _ => Ok ();
     Database.create_container_if_not_exists := fun _ _ => Ok ();
     Database.database_read := Ok {[ "id" := "claims" ]} |}.

(** An SDK whose database read times out. *)
Definition sdk_down : Database.Sdk :=
  {| Database.CosmosClient := fun _ _ => Ok ();
     Database.create_database_if_not_exists := fun _ => Ok ();
     Database.create_container_if_not_exists := fun _ _ => Ok ();
     Database.database_read := Raise (Exception "Request timeout") |}.

End Scenario.

(** ** Vocabulary of the statements *)

(** A string contains an underscore when it decomposes around one. *)
Definition has_underscore (s : string) : Prop :=
  ∃ pre post, s = pre +:+ "_" +:+ post.

(** [resp] is the response projection of the stored document [item]: the
    wire form of the record that [from_dict] reconstructs from it. *)
Definition projects (item resp : gmap string string) : Prop :=
  ∃ clk clk' r,
    CosmosAuditRecord.from_dict item clk = (Ok r, clk') ∧
    resp = AuditRecordResponse.dict (CosmosAuditRecord.to_response_model r).

(** A stored audit document of the customer: what the query's [WHERE]
    clause selects. *)
Definition audit_of (customer_id : string) (d : gmap string string) : Prop :=
  d !! "customerId" = Some customer_id ∧ d !! "type" = Some "audit_record".

#[global] Instance audit_of_dec customer_id d : Decision (audit_of customer_id d).
Proof. unfold audit_of. apply _. Defined.

(** A stored audit record: the document [to_dict] writes for a record the
    program built. *)
Definition stored_record (d : gmap string string) : Prop :=
  ∃ r, CosmosAuditRecord.instance r ∧ d = CosmosAuditRecord.to_dict r.

(** The order on sort keys as a relation. *)
Definition key_le (a b : option string) : Prop := Cosmos.key_leb a b = true.

(** Ascending order of the [timestamp] field. *)
Definition by_timestamp (d1 d2 : gmap string string) : Prop :=
  key_le (d1 !! "timestamp") (d2 !! "timestamp").

(** The order a comparison function induces. *)
Definition ordered (leb : gmap string string → gmap string string → bool)
  : relation (gmap string string) :=
  λ a b, leb a b = true.

(** The twelve fields [from_dict] reads: the eight it indexes and the four
    it reads with [get]. *)
Definition document_fields : list string :=
  CosmosAuditRecord.required_fields ++ ["timestamp"; "created_at"; "updated_at"; "id"].

(** The number a decimal numeral denotes (leading zeros allowed). *)
Definition numeral_value (s : string) : option nat :=
  Nat.of_uint <$> NilEmpty.uint_of_string s.

(** The ranges of the fields of a Python [datetime]. *)
Definition calendar (d : Clock.datetime) : Prop :=
  1 ≤ Clock.year d < 10 ^ 4 ∧ 1 ≤ Clock.month d ≤ 12 ∧ 1 ≤ Clock.day d ≤ 31 ∧
  Clock.hour d < 24 ∧ Clock.minute d < 60 ∧ Clock.second d < 60 ∧
  Clock.microsecond d < 10 ^ 6.

(** Two instants within the same second. *)
Definition same_second (d1 d2 : Clock.datetime) : Prop :=
  Clock.year d1 = Clock.year d2 ∧ Clock.month d1 = Clock.month d2 ∧
  Clock.day d1 = Clock.day d2 ∧ Clock.hour d1 = Clock.hour d2 ∧
  Clock.minute d1 = Clock.minute d2 ∧ Clock.second d1 = Clock.second d2.

(** The instant the next call of [utcnow] returns. *)
Definition next_reading (clk : Clock.t) : Clock.datetime := (Clock.utcnow clk).1.

(** A setting that is present and not empty. *)
Definition configured_setting (v : option string) : Prop :=
  ∃ s, v = Some s ∧ s ≠ EmptyString.

(** * Properties *)

(** ** The derivation, evaluated *)

Example derive_ABC : Derivation.extract_customer_id_from_claim "ABC123_XYZ" = Ok "ABC123".
Proof. reflexivity. Qed.
Example derive_cl : Derivation.extract_customer_id_from_claim "cl4567890" = Ok "CL4567".
Proof. reflexivity. Qed.
Example derive_A1 : Derivation.extract_customer_id_from_claim "A1" = Ok "CUST_A1".
Proof. reflexivity. Qed.
Example derive_empty : Derivation.extract_customer_id_from_claim EmptyString = Ok "CUST_".
Proof. reflexivity. Qed.
Example derive_lead : Derivation.extract_customer_id_from_claim "_x_y" = Ok EmptyString.
Proof. reflexivity. Qed.
Example split_multi : Py.split "ab" "1ab2abab3a" = Ok ["1"; "2"; EmptyString; "3a"].
Proof. reflexivity. Qed.

(** ** Strings *)

Lemma append_cons (x : ascii) (a b : string) :
  String x a +:+ b = String x (a +:+ b).
Proof. reflexivity. Qed.

Lemma append_nil_l (a : string) : EmptyString +:+ a = a.
Proof. reflexivity. Qed.

Ltac str_norm := rewrite ?append_cons, ?append_nil_l in *.

Lemma append_assoc (a b c : string) : (a +:+ b) +:+ c = a +:+ (b +:+ c).
Proof. induction a as [|x a IH]; str_norm; [reflexivity | by f_equal]. Qed.

Lemma append_nil_r (a : string) : a +:+ EmptyString = a.
Proof. induction a as [|x a IH]; str_norm; [reflexivity | by f_equal]. Qed.

Lemma prefix_underscore (s : string) :
  String.prefix "_" s = true ↔ ∃ t, s = String "_" t.
Proof.
  destruct s as [|c s].
  - split; [discriminate | intros [t Ht]; discriminate].
  - change (String.prefix "_" (String c s))
      with (if ascii_dec "_" c then String.prefix EmptyString s else false).
    destruct (ascii_dec "_" c) as [<-|Hne].
    + split; [eauto | intros _; by destruct s].
    + split; [discriminate | intros [t Ht]; congruence].
Qed.

Lemma has_underscore_nil : ¬ has_underscore EmptyString.
Proof. intros ([|??] & ? & H); str_norm; discriminate. Qed.

Lemma has_underscore_cons (c : ascii) (s : string) :
  has_underscore (String c s) ↔ c = "_"%char ∨ has_underscore s.
Proof.
  split.
  - intros ([|x pre] & post & H); str_norm.
    + left. congruence.
    + right. exists pre, post. by injection H as -> ->.
  - intros [->|(pre & post & ->)].
    + by exists EmptyString, s.
    + by exists (String c pre), post.
Qed.

Lemma contains_underscore (s : string) :
  Py.contains "_" s = true ↔ has_underscore s.
Proof.
  induction s as [|c s IH].
  - simpl. split; [discriminate | intros H; by apply has_underscore_nil in H].
  - change (Py.contains "_" (String c s))
      with (String.prefix "_" (String c s) || Py.contains "_" s).
    rewrite orb_true_iff, prefix_underscore, IH, has_underscore_cons.
    split; (intros [H|H]; [left | by right]).
    + destruct H as [t Ht]. congruence.
    + subst c. eauto.
Qed.

Lemma has_underscore_false (s : string) :
  Py.contains "_" s = false → ¬ has_underscore s.
Proof. intros H Hu. apply contains_underscore in Hu. congruence. Qed.

(** The first underscore: the part before it contains none. *)
Lemma first_underscore (s : string) :
  has_underscore s →
  ∃ pre post, s = pre +:+ "_" +:+ post ∧ ¬ has_underscore pre.
Proof.
  induction s as [|c s IH]; intros H.
  - by apply has_underscore_nil in H.
  - destruct (ascii_dec c "_") as [->|Hne].
    + exists EmptyString, s. split; [reflexivity | apply has_underscore_nil].
    + apply has_underscore_cons in H as [?|H]; [done |].
      destruct (IH H) as (pre & post & -> & Hpre).
      exists (String c pre), post. split; [reflexivity |].
      rewrite has_underscore_cons. tauto.
Qed.

Lemma first_underscore_unique (pre post pre' post' : string) :
  pre +:+ "_" +:+ post = pre' +:+ "_" +:+ post' →
  ¬ has_underscore pre → ¬ has_underscore pre' → pre = pre'.
Proof.
  revert pre'. induction pre as [|c pre IH]; intros [|c' pre'] H Hp Hp'; str_norm.
  - reflexivity.
  - exfalso. apply Hp'. apply has_underscore_cons. left. congruence.
  - exfalso. apply Hp. apply has_underscore_cons. left. congruence.
  - injection H as -> H. f_equal. apply IH; [done | |].
    + intros Hu. apply Hp. apply has_underscore_cons. by right.
    + intros Hu. apply Hp'. apply has_underscore_cons. by right.
Qed.

(** Splitting on the underscore: the first piece is what precedes the
    first underscore. *)
Lemma split_from_first (pre cur post : string) :
  ¬ has_underscore pre →
  Py.split_from "_" 0 cur (pre +:+ "_" +:+ post)
  = (cur +:+ pre) :: Py.split_from "_" 0 EmptyString post.
Proof.
  revert cur. induction pre as [|c pre IH]; intros cur Hpre; str_norm.
  - simpl. destruct post; by rewrite append_nil_r.
  - assert (c ≠ "_"%char ∧ ¬ has_underscore pre) as [Hc Hpre'].
    { rewrite has_underscore_cons in Hpre. tauto. }
    cbn [Py.split_from].
    destruct (String.prefix "_" _) eqn:Hp.
    + apply prefix_underscore in Hp as [t Ht]. congruence.
    + rewrite IH by done. by rewrite append_assoc.
Qed.

(** ** Customer-id derivation *)

(** The rule on byte strings, with the ASCII case mapping: what the
    derivation of the handlers' model computes. *)
Theorem extract_customer_id_from_claim_rule (claim_id : string) :
  ∃ customer_id,
    Derivation.extract_customer_id_from_claim claim_id = Ok customer_id ∧
    (has_underscore claim_id →
       ∃ post, claim_id = customer_id +:+ "_" +:+ post ∧ ¬ has_underscore customer_id) ∧
    (¬ has_underscore claim_id → 6 ≤ String.length claim_id →
       customer_id = Py.upper (String.substring 0 6 claim_id)) ∧
    (¬ has_underscore claim_id → String.length claim_id < 6 →
       customer_id = "CUST_" +:+ claim_id).
Proof.
  unfold Derivation.extract_customer_id_from_claim.
  destruct (Py.contains "_" claim_id) eqn:Hc.
  - apply contains_underscore in Hc.
    destruct (first_underscore _ Hc) as (pre & post & -> & Hpre).
    exists pre. repeat split.
    + unfold Py.split. case_decide; [discriminate |].
      cbn [mbind result_bind]. rewrite split_from_first by done.
      by rewrite append_nil_l.
    + eauto.
    + intros Hn. by destruct Hn.
    + intros Hn. by destruct Hn.
  - apply has_underscore_false in Hc.
    destruct (6 <=? String.length claim_id) eqn:Hlen.
    + apply Nat.leb_le in Hlen.
      exists (Py.upper (Py.slice_to 6 claim_id)). repeat split; try done. lia.
    + apply Nat.leb_gt in Hlen.
      exists ("CUST_" +:+ claim_id). repeat split; try done. lia.
Qed.

Lemma extract_customer_id_from_claim_rule_witness :
  Derivation.extract_customer_id_from_claim "ABC123_XYZ" = Ok "ABC123".
Proof.
  destruct (extract_customer_id_from_claim_rule "ABC123_XYZ")
    as (cid & Hcid & Hfirst & _ & _).
  rewrite Hcid. f_equal.
  destruct Hfirst as (post & Heq & Hno).
  - apply contains_underscore. vm_compute. reflexivity.
  - symmetry. eapply (first_underscore_unique "ABC123" "XYZ" cid post); [exact Heq | | exact Hno].
    apply has_underscore_false. vm_compute. reflexivity.
Defined.

(** ** Customer-id derivation on Unicode strings *)

Lemma startswith_underscore (s : list N) :
  PyUnicode.startswith (PyUnicode.literal "_") s = true
  ↔ ∃ t, s = PyUnicode.underscore :: t.
Proof.
  change (PyUnicode.literal "_") with [PyUnicode.underscore].
  destruct s as [|c s]; cbn [PyUnicode.startswith].
  - split; [discriminate | by intros [t ?]].
  - rewrite andb_true_r, bool_decide_eq_true. split.
    + intros <-. by exists s.
    + by intros [t [= <- _]].
Qed.

Lemma contains_underscore_unicode (s : list N) :
  PyUnicode.contains (PyUnicode.literal "_") s = true ↔ PyUnicode.underscore ∈ s.
Proof.
  induction s as [|c s IH].
  - cbn. split; [discriminate | by intros ?%elem_of_nil].
  - change (PyUnicode.contains (PyUnicode.literal "_") (c :: s))
      with (PyUnicode.startswith (PyUnicode.literal "_") (c :: s)
            || PyUnicode.contains (PyUnicode.literal "_") s).
    rewrite orb_true_iff, startswith_underscore, IH, elem_of_cons. split.
    + intros [[t [= -> _]]|H]; [by left | by right].
    + intros [<-|H]; [left; by exists s | by right].
Qed.

Lemma split_from_first_unicode (pre cur post : list N) :
  PyUnicode.underscore ∉ pre →
  PyUnicode.split_from (PyUnicode.literal "_") 0 cur
    (pre ++ PyUnicode.underscore :: post)
  = (cur ++ pre) :: PyUnicode.split_from (PyUnicode.literal "_") 0 [] post.
Proof.
  revert cur. induction pre as [|c pre IH]; intros cur Hpre.
  - rewrite app_nil_r. cbn [app PyUnicode.split_from].
    replace (PyUnicode.startswith _ _) with true; [reflexivity |].
    symmetry. apply startswith_underscore. by eexists.
  - apply not_elem_of_cons in Hpre as [Hc Hpre].
    cbn [app PyUnicode.split_from].
    destruct (PyUnicode.startswith _ _) eqn:Hs.
    + apply startswith_underscore in Hs as [t [= -> _]]. done.
    + rewrite IH by done. by rewrite <- app_assoc.
Qed.

(** C1. For every claim id, a sequence of Unicode code points, and whatever
    [str.upper] is, the derivation returns a customer id and raises
    nothing.  If the claim id contains an underscore, the customer id is the
    part before the first underscore; otherwise, if the claim id has at
    least six characters, it is [str.upper] of its first six characters;
    otherwise it is ["CUST_"] followed by the whole claim id. *)
Theorem extract_customer_id_from_claim_unicode
    (upper : list N → list N) (claim_id : list N) :
  ∃ customer_id,
    PyUnicode.extract_customer_id_from_claim upper claim_id = Ok customer_id ∧
    (PyUnicode.underscore ∈ claim_id →
       ∃ post, claim_id = customer_id ++ PyUnicode.underscore :: post ∧
               PyUnicode.underscore ∉ customer_id) ∧
    (PyUnicode.underscore ∉ claim_id → 6 ≤ length claim_id →
       customer_id = upper (take 6 claim_id)) ∧
    (PyUnicode.underscore ∉ claim_id → length claim_id < 6 →
       customer_id = PyUnicode.literal "CUST_" ++ claim_id).
Proof.
  unfold PyUnicode.extract_customer_id_from_claim.
  destruct (PyUnicode.contains (PyUnicode.literal "_") claim_id) eqn:Hc.
  - apply contains_underscore_unicode in Hc.
    destruct (list_elem_of_split_l _ _ Hc) as (pre & post & -> & Hpre).
    exists pre. repeat split.
    + unfold PyUnicode.split. case_decide; [discriminate |].
      cbn [mbind result_bind]. by rewrite split_from_first_unicode.
    + eauto.
    + intros Hn. by destruct Hn.
    + intros Hn. by destruct Hn.
  - assert (PyUnicode.underscore ∉ claim_id) as Hno.
    { intros Hin. apply contains_underscore_unicode in Hin. congruence. }
    destruct (6 <=? length claim_id) eqn:Hlen.
    + apply Nat.leb_le in Hlen.
      exists (upper (take 6 claim_id)). repeat split; try done. lia.
    + apply Nat.leb_gt in Hlen.
      exists (PyUnicode.literal "CUST_" ++ claim_id). repeat split; try done. lia.
Qed.

Lemma extract_customer_id_from_claim_unicode_witness :
  PyUnicode.extract_customer_id_from_claim PyUnicode.ascii_upper
    (PyUnicode.literal "ABC123_XYZ")
  = Ok (PyUnicode.literal "ABC123").
Proof.
  destruct (extract_customer_id_from_claim_unicode PyUnicode.ascii_upper
              (PyUnicode.literal "ABC123_XYZ"))
    as (cid & Hcid & Hfirst & _ & _).
  rewrite Hcid. f_equal.
  destruct Hfirst as (post & Heq & Hno); [compute_done |].
  assert (PyUnicode.underscore ∉ PyUnicode.literal "ABC123") as Hno' by compute_done.
  change (PyUnicode.literal "ABC123_XYZ")
    with (PyUnicode.literal "ABC123" ++ PyUnicode.underscore :: PyUnicode.literal "XYZ")
    in Heq.
  clear Hcid. revert cid Heq Hno.
  generalize (PyUnicode.literal "XYZ").
  induction (PyUnicode.literal "ABC123") as [|c pre IH]; intros rest [|c' cid] Heq Hno.
  - reflexivity.
  - injection Heq as <- _. destruct Hno. by left.
  - injection Heq as -> _. destruct Hno'. by left.
  - injection Heq as <- Heq. f_equal.
    apply (IH (proj2 (proj1 (not_elem_of_cons _ _ _) Hno')) rest);
      [done | by apply not_elem_of_cons in Hno as [_ ?]].
Defined.

(** Two claim ids outside ASCII: [abcdé] has five characters and takes the
    ["CUST_"] branch; [éabcde] has six and is handed to [str.upper]. *)
Example derive_unicode_short (upper : list N → list N) :
  PyUnicode.extract_customer_id_from_claim upper [97; 98; 99; 100; 233]%N
  = Ok [67; 85; 83; 84; 95; 97; 98; 99; 100; 233]%N.
Proof. reflexivity. Qed.

Example derive_unicode_six (upper : list N → list N) :
  PyUnicode.extract_customer_id_from_claim upper [233; 97; 98; 99; 100; 101]%N
  = Ok (upper [233; 97; 98; 99; 100; 101]%N).
Proof. reflexivity. Qed.

(** ** The audit record *)

Import CosmosAuditRecord.

Lemma generate_audit_id_nonempty (clk : Clock.t) :
  (_generate_audit_id clk).1 ≠ EmptyString.
Proof. unfold _generate_audit_id, Clock.utcnow. simpl. str_norm. discriminate. Qed.

Lemma audit_id_or_generate_nonempty (aid : option string) (clk : Clock.t) :
  (audit_id_or_generate aid clk).1 ≠ EmptyString.
Proof.
  unfold audit_id_or_generate.
  destruct aid as [a|]; [case_decide |]; auto using generate_audit_id_nonempty.
Qed.

Lemma audit_id_or_generate_kept (a : string) (clk : Clock.t) :
  a ≠ EmptyString → audit_id_or_generate (Some a) clk = (a, clk).
Proof. intros Ha. unfold audit_id_or_generate. by case_decide. Qed.

Lemma init_audit_id (a b c d e f g : string) (aid : option string) (clk : Clock.t) :
  audit_id (__init__ a b c d e f g aid clk).1 = (audit_id_or_generate aid clk).1.
Proof. unfold __init__. by destruct (audit_id_or_generate aid clk). Qed.

(** [from_dict] succeeds exactly on the documents that carry the eight
    fields it indexes, and then its result is the constructed record with the
    four [get] overrides. *)
Lemma from_dict_ok (data : gmap string string) (clk : Clock.t)
    (a b c d e f g h : string) :
  data !! "claim_id" = Some a → data !! "customerId" = Some b →
  data !! "customer_name" = Some c → data !! "process_name" = Some d →
  data !! "process_status" = Some e → data !! "process_details" = Some f →
  data !! "agent_name" = Some g → data !! "audit_id" = Some h →
  from_dict data clk =
    let '(r, clk') := __init__ a b c d e f g (Some h) clk in
    (Ok {| claim_id := a; customer_id := b; customer_name := c;
           process_name := d; process_status := e; process_details := f;
           agent_name := g; audit_id := audit_id r;
           timestamp := get data "timestamp" (timestamp r);
           created_at := get data "created_at" (created_at r);
           updated_at := get data "updated_at" (updated_at r);
           id := get data "id" (id r) |}, clk').
Proof.
  intros Ha Hb Hc Hd He Hf Hg Hh. unfold from_dict, getitem.
  rewrite Ha, Hb, Hc, Hd, He, Hf, Hg, Hh. cbn [mbind result_bind mret result_ret].
  unfold __init__. by destruct (audit_id_or_generate (Some h) clk).
Qed.

Lemma from_dict_inv (data : gmap string string) (clk clk' : Clock.t) (r : t) :
  from_dict data clk = (Ok r, clk') →
  ∃ a b c d e f g h,
    data !! "claim_id" = Some a ∧ data !! "customerId" = Some b ∧
    data !! "customer_name" = Some c ∧ data !! "process_name" = Some d ∧
    data !! "process_status" = Some e ∧ data !! "process_details" = Some f ∧
    data !! "agent_name" = Some g ∧ data !! "audit_id" = Some h.
Proof.
  unfold from_dict, getitem. intros H.
  destruct (data !! "claim_id") as [a|]; [|discriminate].
  destruct (data !! "customerId") as [b|]; [|discriminate].
  destruct (data !! "customer_name") as [c|]; [|discriminate].
  destruct (data !! "process_name") as [d|]; [|discriminate].
  destruct (data !! "process_status") as [e|]; [|discriminate].
  destruct (data !! "process_details") as [f|]; [|discriminate].
  destruct (data !! "agent_name") as [g|]; [|discriminate].
  destruct (data !! "audit_id") as [h|]; [|discriminate].
  by exists a, b, c, d, e, f, g, h.
Qed.

Lemma instance_audit_id_nonempty (r : t) : instance r → audit_id r ≠ EmptyString.
Proof.
  intros [a b c d e f g aid clk | data clk record clk' Hfrom].
  - rewrite init_audit_id. apply audit_id_or_generate_nonempty.
  - destruct (from_dict_inv _ _ _ _ Hfrom)
      as (a & b & c & d & e & f & g & h & Ha & Hb & Hc & Hd & He & Hf & Hg & Hh).
    rewrite (from_dict_ok _ _ _ _ _ _ _ _ _ _ Ha Hb Hc Hd He Hf Hg Hh) in Hfrom.
    pose proof (init_audit_id a b c d e f g (Some h) clk) as Hid.
    destruct (__init__ a b c d e f g (Some h) clk) as [r0 clk0].
    injection Hfrom as <- _. cbn [audit_id fst] in *. rewrite Hid.
    apply audit_id_or_generate_nonempty.
Qed.

Lemma to_dict_lookups (r : t) :
  to_dict r !! "claim_id" = Some (claim_id r) ∧
  to_dict r !! "customerId" = Some (customer_id r) ∧
  to_dict r !! "customer_name" = Some (customer_name r) ∧
  to_dict r !! "process_name" = Some (process_name r) ∧
  to_dict r !! "process_status" = Some (process_status r) ∧
  to_dict r !! "process_details" = Some (process_details r) ∧
  to_dict r !! "agent_name" = Some (agent_name r) ∧
  to_dict r !! "audit_id" = Some (audit_id r) ∧
  to_dict r !! "timestamp" = Some (timestamp r) ∧
  to_dict r !! "created_at" = Some (created_at r) ∧
  to_dict r !! "updated_at" = Some (updated_at r) ∧
  to_dict r !! "id" = Some (id r) ∧
  to_dict r !! "type" = Some "audit_record".
Proof. repeat split; reflexivity. Qed.

(** Round trip under the class invariant. *)
Lemma from_dict_to_dict (r : t) (clk : Clock.t) :
  audit_id r ≠ EmptyString →
  from_dict (to_dict r) clk = (Ok r, (Clock.utcnow clk).2).
Proof.
  intros Hne.
  destruct (to_dict_lookups r)
    as (Ha & Hb & Hc & Hd & He & Hf & Hg & Hh & Ht & Hca & Hu & Hi & _).
  rewrite (from_dict_ok _ _ _ _ _ _ _ _ _ _ Ha Hb Hc Hd He Hf Hg Hh).
  unfold __init__. rewrite audit_id_or_generate_kept by done.
  unfold get. rewrite Ht, Hca, Hu, Hi. by destruct r.
Qed.

(** C2. Serialising an audit record to its storage document and reading the
    document back gives the same record, field for field: for every record
    [r] the program can build (by the constructor or by [from_dict]),
    [from_dict] of [to_dict r] succeeds and returns [r]; the only effect is
    the one clock reading the constructor makes. *)
Theorem from_dict_to_dict_roundtrip (r : t) (clk : Clock.t) :
  instance r →
  from_dict (to_dict r) clk = (Ok r, (Clock.utcnow clk).2).
Proof.
  intros Hr. apply from_dict_to_dict. by apply instance_audit_id_nonempty.
Qed.

Lemma from_dict_to_dict_roundtrip_witness :
  instance Scenario.event ∧
  from_dict (to_dict Scenario.event) Scenario.frozen
  = (Ok Scenario.event, (Clock.utcnow Scenario.frozen).2).
Proof.
  split; [apply instance_init |].
  apply (from_dict_to_dict_roundtrip Scenario.event Scenario.frozen).
  apply instance_init.
Defined.

(** The claim that the discriminator is stored under [record_type] fails:
    the document has no such field; the constant sits under [type]. *)
Lemma to_dict_record_type_absent :
  to_dict Scenario.event !! "record_type" ≠ Some "audit_record" ∧
  to_dict Scenario.event !! "type" = Some "audit_record".
Proof. split; [vm_compute; discriminate | reflexivity]. Qed.

(** C3 (amended). Every attribute of the record is stored under its own
    name, except [customer_id], which is stored as [customerId]; besides the
    twelve attributes the document carries the constant ["audit_record"]
    under the field name [type], and nothing else. *)
Theorem to_dict_field_names (r : t) (k : string) :
  to_dict r !! k =
    if decide (k = "type") then Some "audit_record"
    else if decide (k = "customerId") then vars r !! "customer_id"
    else if decide (k = "customer_id") then None
    else vars r !! k.
Proof.
  unfold to_dict, vars.
  repeat (rewrite lookup_insert; case_decide; simplify_eq; [reflexivity |]).
  rewrite lookup_empty.
  repeat (case_decide; simplify_eq); try reflexivity.
  repeat (rewrite lookup_insert; case_decide; simplify_eq).
  by rewrite lookup_empty.
Qed.

(** C4. The document id of a constructed record is its customer id, an
    underscore and its audit id; hence two constructions that agree on
    customer id and audit id agree on the document id. *)
Theorem document_id_deterministic
    (a b c d e f g : string) (aid : option string) (clk : Clock.t)
    (a' b' c' d' e' f' g' : string) (aid' : option string) (clk' : Clock.t) :
  let r := (__init__ a b c d e f g aid clk).1 in
  let r' := (__init__ a' b' c' d' e' f' g' aid' clk').1 in
  id r = customer_id r +:+ "_" +:+ audit_id r ∧
  (customer_id r = customer_id r' → audit_id r = audit_id r' → id r = id r').
Proof.
  unfold __init__.
  destruct (audit_id_or_generate aid clk) as [x clk1].
  destruct (audit_id_or_generate aid' clk') as [x' clk1'].
  simpl. split; [reflexivity | by intros -> ->].
Qed.

Lemma document_id_deterministic_witness :
  id (__init__ "CUST1_001" "CUST1" "Ann" "intake" "pending" "received" "bot"
        None Scenario.frozen).1
  = id (__init__ "CUST1_002" "CUST1" "Bob" "review" "completed" "ok" "agent7"
          None (Clock.utcnow Scenario.frozen).2).1.
Proof.
  apply (document_id_deterministic
           "CUST1_001" "CUST1" "Ann" "intake" "pending" "received" "bot"
           None Scenario.frozen
           "CUST1_002" "CUST1" "Bob" "review" "completed" "ok" "agent7"
           None (Clock.utcnow Scenario.frozen).2);
    vm_compute; reflexivity.
Defined.

(** C9. Right after construction the three timestamps coincide: each is the
    ISO rendering, with a trailing [Z], of the single clock reading the
    constructor takes after settling the audit id. *)
Theorem init_timestamps_equal
    (a b c d e f g : string) (aid : option string) (clk : Clock.t) :
  let r := (__init__ a b c d e f g aid clk).1 in
  let now := (Clock.utcnow (audit_id_or_generate aid clk).2).1 in
  timestamp r = Clock.isoformat now +:+ "Z" ∧
  created_at r = timestamp r ∧
  updated_at r = timestamp r.
Proof.
  unfold __init__.
  destruct (audit_id_or_generate aid clk) as [x clk1]. by simpl.
Qed.

(** C10. An empty audit id does not survive reconstruction.  The constructor
    called with the empty string as [audit_id] generates ["AUD"] followed by the time
    stamp of the clock reading; so does [from_dict] on every document whose
    ["audit_id"] is empty (and that carries the other fields): it succeeds,
    but re-serialising its result does not give the stored audit id back.
    No document at all is reconstructed into a record with an empty audit
    id. *)
Theorem empty_audit_id_regenerated (clk : Clock.t) :
  let generated := "AUD" +:+ Clock.strftime_YmdHMS (Clock.utcnow clk).1 in
  (∀ a b c d e f g,
     audit_id (__init__ a b c d e f g (Some EmptyString) clk).1 = generated) ∧
  (∀ data : gmap string string,
     data !! "audit_id" = Some EmptyString →
     reconstructible data →
     ∃ r clk',
       from_dict data clk = (Ok r, clk') ∧
       audit_id r = generated ∧
       audit_id r ≠ EmptyString ∧
       to_dict r !! "audit_id" ≠ data !! "audit_id") ∧
  (∀ (data : gmap string string) clk' r,
     from_dict data clk = (Ok r, clk') → audit_id r ≠ EmptyString).
Proof.
  intros generated. split; [|split].
  - intros. by rewrite init_audit_id.
  - intros data Hempty Hall. unfold reconstructible, required_fields in Hall.
    repeat (apply Forall_cons in Hall as [[? ?] Hall]).
    erewrite from_dict_ok by eassumption.
    pose proof (init_audit_id x x0 x1 x2 x3 x4 x5 (Some x6) clk) as Hid.
    destruct (__init__ _ _ _ _ _ _ _ _ clk) as [r0 clk0].
    cbn [fst] in Hid. eexists _, _. split; [reflexivity |]. cbn [audit_id].
    assert (x6 = EmptyString) as -> by congruence.
    assert (audit_id r0 = generated) as Hgen by (by rewrite Hid).
    split; [done |]. split.
    + rewrite Hgen. subst generated. str_norm. discriminate.
    + destruct (to_dict_lookups
                  {| claim_id := x; customer_id := x0; customer_name := x1;
                     process_name := x2; process_status := x3;
                     process_details := x4; agent_name := x5;
                     audit_id := audit_id r0;
                     timestamp := get data "timestamp" (timestamp r0);
                     created_at := get data "created_at" (created_at r0);
                     updated_at := get data "updated_at" (updated_at r0);
                     id := get data "id" (id r0) |})
        as (_ & _ & _ & _ & _ & _ & _ & Haid & _).
      rewrite Haid, Hempty. cbn [audit_id]. rewrite Hgen. subst generated.
      str_norm. discriminate.
  - intros data clk' r Hfrom. apply instance_audit_id_nonempty.
    by eapply instance_from_dict.
Qed.

Lemma empty_audit_id_regenerated_witness :
  ∃ r clk',
    from_dict (<["audit_id" := EmptyString]> (to_dict Scenario.event)) Scenario.clk0
      = (Ok r, clk') ∧
    audit_id r = "AUD20240307090500".
Proof.
  destruct (empty_audit_id_regenerated Scenario.clk0) as (_ & Hdoc & _).
  destruct (Hdoc (<["audit_id" := EmptyString]> (to_dict Scenario.event)))
    as (r & clk' & Hfrom & Hid & _).
  - reflexivity.
  - unfold reconstructible, required_fields. repeat constructor; vm_compute; eauto.
  - exists r, clk'. split; [exact Hfrom | exact Hid].
Defined.

(** ** The create handler *)

Import Api.

(** What [create_audit_record] does once the customer id is derived, the
    record built and [create_item] has answered. *)
Lemma create_audit_record_unfold {S : Type} (container : Cosmos.Container S)
    (record : AuditRecordRequest.t) (st : S) (clk : Clock.t) (customer_id : string) :
  Derivation.extract_customer_id_from_claim (AuditRecordRequest.claim_id record)
    = Ok customer_id →
  let built :=
    __init__ (AuditRecordRequest.claim_id record) customer_id
      (AuditRecordRequest.customer_name record)
      (AuditRecordRequest.process_name record)
      (AuditRecordRequest.process_status record)
      (AuditRecordRequest.process_details record)
      (AuditRecordRequest.agent_name record) None clk in
  let answer := Cosmos.create_item container (to_dict built.1) false st in
  create_audit_record container record st clk =
    (match answer.1 with
     | Raise e => Raise (create_handlers e)
     | Ok _ =>
         Ok {| message := "Audit record created successfully";
               record := AuditRecordResponse.dict (to_response_model built.1) |}
     end, answer.2, built.2).
Proof.
  intros Hcid. unfold create_audit_record. rewrite Hcid. cbv zeta.
  destruct (__init__ _ _ _ _ _ _ _ _ clk) as [r clk1]. cbn [fst snd].
  destruct (Cosmos.create_item container (to_dict r) false st) as [[item|e] st1];
    reflexivity.
Qed.

(** C5. When [create_item] fails on the document of the new record, the
    create operation fails too: with 409 "already exists" exactly when the
    storage fault is a Cosmos error of status 409, and with 500 and the
    underlying message for every other fault. *)
Theorem create_failure_kinds {S : Type} (container : Cosmos.Container S)
    (record : AuditRecordRequest.t) (st st' : S) (clk : Clock.t)
    (customer_id : string) (fault : pyexn) :
  Derivation.extract_customer_id_from_claim (AuditRecordRequest.claim_id record)
    = Ok customer_id →
  Cosmos.create_item container
    (to_dict (__init__ (AuditRecordRequest.claim_id record) customer_id
                (AuditRecordRequest.customer_name record)
                (AuditRecordRequest.process_name record)
                (AuditRecordRequest.process_status record)
                (AuditRecordRequest.process_details record)
                (AuditRecordRequest.agent_name record) None clk).1)
    false st = (Raise fault, st') →
  let outcome := (create_audit_record container record st clk).1.1 in
  (∀ m, fault = CosmosHttpResponseError 409 m →
        outcome = Raise (HTTPException 409 "Audit record already exists")) ∧
  (∀ sc m, fault = CosmosHttpResponseError sc m → sc ≠ 409 →
        outcome = Raise (HTTPException 500 ("Database error: " +:+ m))) ∧
  ((∀ sc m, fault ≠ CosmosHttpResponseError sc m) →
        outcome = Raise (HTTPException 500
                           ("Failed to create audit record: " +:+ Py.str fault))) ∧
  ((∃ d, outcome = Raise (HTTPException 409 d))
     ↔ ∃ m, fault = CosmosHttpResponseError 409 m).
Proof.
  intros Hcid Hfail outcome. subst outcome.
  rewrite (create_audit_record_unfold _ _ _ _ _ Hcid). cbv zeta.
  rewrite Hfail. cbn [fst snd].
  assert (∀ sc m, sc ≠ 409 →
            create_handlers (CosmosHttpResponseError sc m)
            = HTTPException 500 ("Database error: " +:+ m)) as Hother.
  { intros sc m Hsc. unfold create_handlers.
    destruct (sc =? 409) eqn:E; [apply Nat.eqb_eq in E; done | done]. }
  repeat split.
  - by intros m ->.
  - intros sc m -> Hsc. by rewrite Hother.
  - intros Hnot. destruct fault as [sc m| | | | |]; try reflexivity.
    by destruct (Hnot sc m).
  - intros [d Hd]. destruct fault as [sc m| | | | |]; try discriminate.
    destruct (decide (sc = 409)) as [->|Hsc]; [eauto |].
    rewrite Hother in Hd by done. discriminate.
  - intros [m ->]. eauto.
Qed.

Lemma create_failure_kinds_witness :
  (create_audit_record Cosmos.memory Scenario.request Scenario.st1 Scenario.clk1).1.1
  = Raise (HTTPException 409 "Audit record already exists").
Proof.
  eapply (create_failure_kinds Cosmos.memory Scenario.request
            Scenario.st1 Scenario.st1 Scenario.clk1 "CUST1"
            (CosmosHttpResponseError 409
               "Entity with the specified id already exists in the system.")).
  - reflexivity.
  - vm_compute. reflexivity.
  - reflexivity.
Defined.

(** ** The retrieval handler *)

Lemma reconstructible_from_dict (data : gmap string string) (clk : Clock.t) :
  reconstructible data → ∃ r clk', from_dict data clk = (Ok r, clk').
Proof.
  unfold reconstructible, required_fields. intros Hall.
  repeat (apply Forall_cons in Hall as [[? ?] Hall]).
  erewrite from_dict_ok by eassumption.
  destruct (__init__ _ _ _ _ _ _ _ _ clk) as [r0 clk0]. eauto.
Qed.

Lemma to_dict_reconstructible (r : t) : reconstructible (to_dict r).
Proof.
  destruct (to_dict_lookups r)
    as (Ha & Hb & Hc & Hd & He & Hf & Hg & Hh & _).
  unfold reconstructible, required_fields. repeat constructor; eauto.
Qed.

Lemma convert_ok (items : list (gmap string string))
    (acc : list AuditRecordResponse.t) (clk : Clock.t) :
  Forall reconstructible items →
  ∃ recs clk',
    convert items acc clk = (Ok (acc ++ recs), clk') ∧
    Forall2 (λ item rec, projects item (AuditRecordResponse.dict rec)) items recs.
Proof.
  revert acc clk. induction items as [|item items IH]; intros acc clk Hall.
  - exists [], clk. by rewrite app_nil_r.
  - apply Forall_cons in Hall as [Hitem Hall].
    destruct (reconstructible_from_dict item clk Hitem) as (r & clk1 & Hr).
    destruct (IH (acc ++ [to_response_model r]) clk1 Hall) as (recs & clk' & Hc & HF).
    exists (to_response_model r :: recs), clk'. split.
    + cbn [convert]. rewrite Hr, Hc. by rewrite <- app_assoc.
    + constructor; [|done]. by exists clk, clk1, r.
Qed.

Lemma convert_length (items : list (gmap string string))
    (acc recs : list AuditRecordResponse.t) (clk clk' : Clock.t) :
  convert items acc clk = (Ok recs, clk') →
  length recs = length acc + length items.
Proof.
  revert acc clk. induction items as [|item items IH]; intros acc clk H.
  - injection H as <- _. simpl. lia.
  - cbn [convert] in H. destruct (from_dict item clk) as [[r|e] clk1]; [|discriminate].
    apply IH in H. rewrite length_app in H. simpl in *. lia.
Qed.

Lemma get_audit_records_unfold {S : Type} (container : Cosmos.Container S)
    (customer_id : string) (st st' : S) (clk : Clock.t)
    (items : list (gmap string string)) :
  Cosmos.query_items container query (parameters customer_id) customer_id false st
    = (Ok items, st') →
  (get_audit_records_by_customer container customer_id st clk).1.1 =
    match items with
    | [] => Raise (HTTPException 404
                     ("No audit records found for customer: " +:+ customer_id))
    | _ => match (convert items [] clk).1 with
           | Ok recs => Ok (AuditRecordResponse.dict <$> recs)
           | Raise e => Raise (get_handlers e)
           end
    end.
Proof.
  intros Hq. unfold get_audit_records_by_customer. rewrite Hq.
  destruct items as [|item items]; [reflexivity |].
  destruct (convert (item :: items) [] clk) as [[recs|e] clk1]; reflexivity.
Qed.

Lemma from_dict_missing_field (data : gmap string string) (clk : Clock.t) :
  ¬ reconstructible data →
  ∃ k, k ∈ required_fields ∧ from_dict data clk = (Raise (KeyError k), clk).
Proof.
  intros Hnot. unfold from_dict, getitem.
  destruct (data !! "claim_id") as [a|] eqn:Ha;
    [|exists "claim_id"; split; [set_solver | done]].
  destruct (data !! "customerId") as [b|] eqn:Hb;
    [|exists "customerId"; split; [set_solver | done]].
  destruct (data !! "customer_name") as [c|] eqn:Hc;
    [|exists "customer_name"; split; [set_solver | done]].
  destruct (data !! "process_name") as [d|] eqn:Hd;
    [|exists "process_name"; split; [set_solver | done]].
  destruct (data !! "process_status") as [e|] eqn:He;
    [|exists "process_status"; split; [set_solver | done]].
  destruct (data !! "process_details") as [f|] eqn:Hf;
    [|exists "process_details"; split; [set_solver | done]].
  destruct (data !! "agent_name") as [g|] eqn:Hg;
    [|exists "agent_name"; split; [set_solver | done]].
  destruct (data !! "audit_id") as [h|] eqn:Hh;
    [|exists "audit_id"; split; [set_solver | done]].
  destruct Hnot. unfold reconstructible, required_fields.
  repeat constructor; eauto.
Qed.

Lemma convert_missing_field (items : list (gmap string string))
    (acc : list AuditRecordResponse.t) (clk : Clock.t) :
  Exists (λ d, ¬ reconstructible d) items →
  ∃ k, k ∈ required_fields ∧ (convert items acc clk).1 = Raise (KeyError k).
Proof.
  revert acc clk. induction items as [|item items IH]; intros acc clk Hex.
  - by apply Exists_nil in Hex.
  - cbn [convert]. destruct (decide (reconstructible item)) as [Hrec|Hnot].
    + apply Exists_cons in Hex as [Hbad|Hex]; [done |].
      destruct (reconstructible_from_dict item clk Hrec) as (r & clk1 & ->).
      by apply IH.
    + destruct (from_dict_missing_field item clk Hnot) as (k & Hk & ->). eauto.
Qed.

Lemma convert_written (rs : list t) (acc : list AuditRecordResponse.t)
    (clk : Clock.t) :
  Forall instance rs →
  (convert (to_dict <$> rs) acc clk).1 = Ok (acc ++ (to_response_model <$> rs)).
Proof.
  revert acc clk. induction rs as [|r rs IH]; intros acc clk Hall.
  - cbn. by rewrite app_nil_r.
  - apply Forall_cons in Hall as [Hr Hall]. cbn [fmap list_fmap convert].
    rewrite from_dict_to_dict by (by apply instance_audit_id_nonempty).
    rewrite IH by done. by rewrite <- app_assoc.
Qed.

(** C6. When the storage query returns no document the retrieval fails with
    404 instead of succeeding with an empty list, so that a success never
    carries an empty list.  When it returns at least one document, the
    documents being stored audit records (what [to_dict] writes for the
    records the program builds), the retrieval succeeds with the list of
    their response projections, in the order the query returned them. *)
Theorem retrieval_empty_is_not_found {S : Type} (container : Cosmos.Container S)
    (customer_id : string) (st st' : S) (clk : Clock.t)
    (items : list (gmap string string)) :
  Cosmos.query_items container query (parameters customer_id) customer_id false st
    = (Ok items, st') →
  let outcome := (get_audit_records_by_customer container customer_id st clk).1.1 in
  (items = [] →
     outcome = Raise (HTTPException 404
                        ("No audit records found for customer: " +:+ customer_id))) ∧
  (∀ records, outcome = Ok records → records ≠ []) ∧
  (∀ rs : list t,
     items = to_dict <$> rs → rs ≠ [] → Forall instance rs →
     outcome = Ok ((λ r, AuditRecordResponse.dict (to_response_model r)) <$> rs)).
Proof.
  intros Hq outcome. subst outcome.
  rewrite (get_audit_records_unfold _ _ _ _ _ _ Hq). repeat split.
  - by intros ->.
  - intros records Hok ->. destruct items as [|item items]; [discriminate |].
    destruct (convert (item :: items) [] clk) as [[recs|e] clk1] eqn:Hc;
      cbn [fst] in Hok; [|discriminate].
    apply convert_length in Hc. injection Hok as Hok.
    apply fmap_nil_inv in Hok as ->. simpl in Hc. lia.
  - intros rs -> Hne Hall. destruct rs as [|r rs]; [done |].
    pose proof (convert_written (r :: rs) [] clk Hall) as Hc.
    cbn [fmap list_fmap] in *. rewrite Hc. cbn [app].
    f_equal. symmetry.
    exact (list_fmap_compose to_response_model AuditRecordResponse.dict (r :: rs)).
Qed.

Lemma retrieval_empty_is_not_found_witness :
  (get_audit_records_by_customer Cosmos.memory "CUST1"
     Scenario.st1 Scenario.clk1).1.1
  = Ok [AuditRecordResponse.dict (to_response_model Scenario.event_frozen)].
Proof.
  assert (Cosmos.query_items Cosmos.memory query (parameters "CUST1")
            "CUST1" false Scenario.st1
          = (Ok [to_dict Scenario.event_frozen], Scenario.st1)) as Hq
    by compute_done.
  destruct (retrieval_empty_is_not_found Cosmos.memory "CUST1"
              Scenario.st1 Scenario.st1 Scenario.clk1
              [to_dict Scenario.event_frozen] Hq) as (_ & _ & Hwritten).
  apply (Hwritten [Scenario.event_frozen]).
  - reflexivity.
  - discriminate.
  - constructor; [apply instance_init | constructor].
Defined.

(** ** The reference container's query *)

Section Sorting.
Variable leb : Cosmos.document → Cosmos.document → bool.
Hypothesis leb_total : ∀ a b, leb a b = true ∨ leb b a = true.

Lemma insert_sorted_perm (d : Cosmos.document) (l : list Cosmos.document) :
  Cosmos.insert_sorted leb d l ≡ₚ d :: l.
Proof.
  induction l as [|x l IH]; simpl; [done |].
  destruct (leb d x); [done |]. rewrite IH. apply Permutation_swap.
Qed.

Lemma sort_perm (l : list Cosmos.document) : Cosmos.sort leb l ≡ₚ l.
Proof.
  induction l as [|x l IH]; simpl; [done |].
  by rewrite insert_sorted_perm, IH.
Qed.

Lemma insert_sorted_hd (a d : Cosmos.document) (l : list Cosmos.document) :
  ordered leb a d → HdRel (ordered leb) a l → HdRel (ordered leb) a (Cosmos.insert_sorted leb d l).
Proof.
  intros Had Hl. destruct l as [|x l]; simpl; [by constructor |].
  destruct (leb d x); constructor; [done |]. by inversion Hl.
Qed.

Lemma insert_sorted_sorted (d : Cosmos.document) (l : list Cosmos.document) :
  Sorted (ordered leb) l → Sorted (ordered leb) (Cosmos.insert_sorted leb d l).
Proof.
  induction 1 as [|x l Hs IH Hhd]; simpl; [by repeat constructor |].
  destruct (leb d x) eqn:E.
  - constructor; [by constructor | by constructor].
  - constructor; [done |]. apply insert_sorted_hd; [|done].
    destruct (leb_total d x) as [H|H]; [congruence | done].
Qed.

Lemma sort_sorted (l : list Cosmos.document) : Sorted (ordered leb) (Cosmos.sort leb l).
Proof.
  induction l as [|x l IH]; simpl; [constructor |].
  by apply insert_sorted_sorted.
Qed.
End Sorting.

Lemma key_leb_total (a b : option string) :
  Cosmos.key_leb a b = true ∨ Cosmos.key_leb b a = true.
Proof. destruct a, b; simpl; auto using String.leb_total. Qed.

Lemma parse_query :
  Cosmos.parse query =
    Some {| Cosmos.conditions := [("customerId", "@customer_id"); ("type", "@type")];
            Cosmos.order_by := Some ("timestamp", true) |}.
Proof. vm_compute. reflexivity. Qed.

Lemma selected_audit_of (customer_id : string) (d : gmap string string) :
  Cosmos.selected (parameters customer_id)
    [("customerId", "@customer_id"); ("type", "@type")] d
  = bool_decide (audit_of customer_id d).
Proof.
  unfold Cosmos.selected, Cosmos.satisfies, parameters.
  cbn [forallb fst snd].
  change ((list_to_map [("@customer_id", customer_id); ("@type", "audit_record")]
             : gmap string string) !! "@customer_id") with (Some customer_id).
  change ((list_to_map [("@customer_id", customer_id); ("@type", "audit_record")]
             : gmap string string) !! "@type") with (Some "audit_record").
  case_bool_decide as H; unfold audit_of in H.
  - destruct H as [-> ->]. by rewrite !bool_decide_eq_true_2.
  - destruct (d !! "customerId") as [v|], (d !! "type") as [w|]; simpl;
      repeat case_bool_decide; naive_solver.
Qed.

Lemma filter_selected (customer_id : string) (docs : list (gmap string string)) :
  List.filter (Cosmos.selected (parameters customer_id)
                 [("customerId", "@customer_id"); ("type", "@type")]) docs
  = filter (audit_of customer_id) docs.
Proof.
  induction docs as [|d docs IH]; [reflexivity |].
  cbn [List.filter]. rewrite filter_cons, selected_audit_of, IH.
  by case_bool_decide; case_decide.
Qed.

Lemma mem_query_items_audit (customer_id : string) (cross : bool) (st : Cosmos.store) :
  Cosmos.mem_query_items query (parameters customer_id) customer_id cross st
  = (Ok (Cosmos.sort (Cosmos.doc_leb "timestamp" true)
           (filter (audit_of customer_id) (Cosmos.partition st customer_id))), st).
Proof.
  unfold Cosmos.mem_query_items. rewrite parse_query.
  unfold Cosmos.run. cbn [Cosmos.conditions Cosmos.order_by].
  by rewrite filter_selected.
Qed.

Lemma projects_timestamp (item resp : gmap string string) :
  projects item resp → is_Some (item !! "timestamp") →
  resp !! "timestamp" = item !! "timestamp".
Proof.
  intros (clk & clk' & r & Hfrom & ->) [v Hv].
  destruct (from_dict_inv _ _ _ _ Hfrom)
    as (a & b & c & d & e & f & g & h & Ha & Hb & Hc & Hd & He & Hf & Hg & Hh).
  rewrite (from_dict_ok _ _ _ _ _ _ _ _ _ _ Ha Hb Hc Hd He Hf Hg Hh) in Hfrom.
  destruct (__init__ a b c d e f g (Some h) clk) as [r0 clk0].
  injection Hfrom as <- _.
  change (Some (get item "timestamp" (timestamp r0)) = item !! "timestamp").
  unfold get. by rewrite Hv.
Qed.

Lemma sorted_projections (items records : list (gmap string string)) :
  Forall2 (λ item resp, resp !! "timestamp" = item !! "timestamp") items records →
  Sorted by_timestamp items → Sorted by_timestamp records.
Proof.
  induction 1 as [|item resp items records Hkey HF IH]; intros Hs; [constructor |].
  apply Sorted_inv in Hs as [Hs Hhd]. constructor; [by apply IH |].
  destruct HF as [|item' resp' ? ? Hkey' _]; constructor.
  apply HdRel_inv in Hhd. unfold by_timestamp in *. by rewrite Hkey, Hkey'.
Qed.

Lemma key_le_trans : Transitive key_le.
Proof.
  intros [a|] [b|] [c|]; unfold key_le; simpl; try done.
  rewrite <- !Is_true_true. apply (transitivity (R := String.le)).
Qed.

Lemma key_le_antisym : AntiSymm (=) key_le.
Proof.
  intros [a|] [b|]; unfold key_le; simpl; try done.
  intros H1 H2. f_equal. by apply String.leb_antisym.
Qed.

(** Two sorted arrangements of the same documents show the same sequence
    of timestamps. *)
Lemma sorted_timestamps_unique (l1 l2 : list (gmap string string)) :
  l1 ≡ₚ l2 → Sorted by_timestamp l1 → Sorted by_timestamp l2 →
  (λ d : gmap string string, d !! "timestamp") <$> l1
  = (λ d : gmap string string, d !! "timestamp") <$> l2.
Proof.
  intros Hp H1 H2.
  apply (Sorted_unique key_le
           (Transitive0 := key_le_trans) (AntiSymm0 := key_le_antisym)).
  - by apply (Sorted_fmap _ by_timestamp key_le).
  - by apply (Sorted_fmap _ by_timestamp key_le).
  - by apply fmap_Permutation.
Qed.

Lemma get_audit_records_memory (customer_id : string) (st : Cosmos.store)
    (clk : Clock.t) :
  let items := Cosmos.sort (Cosmos.doc_leb "timestamp" true)
                 (filter (audit_of customer_id) (Cosmos.partition st customer_id)) in
  (get_audit_records_by_customer Cosmos.memory customer_id st clk).1.1 =
    match items with
    | [] => Raise (HTTPException 404
                     ("No audit records found for customer: " +:+ customer_id))
    | _ => match (convert items [] clk).1 with
           | Ok recs => Ok (AuditRecordResponse.dict <$> recs)
           | Raise e => Raise (get_handlers e)
           end
    end.
Proof.
  intros items. apply (get_audit_records_unfold Cosmos.memory _ st st).
  apply mem_query_items_audit.
Qed.

Lemma stored_records_written (items : list (gmap string string)) :
  Forall stored_record items →
  ∃ rs, Forall instance rs ∧ items = to_dict <$> rs.
Proof.
  induction 1 as [|d items (r & Hr & ->) _ (rs & Hrs & ->)].
  - by exists [].
  - exists (r :: rs). split; [by constructor | reflexivity].
Qed.

Lemma written_projections_timestamps (rs : list t) :
  Forall2 (λ item resp : gmap string string,
             resp !! "timestamp" = item !! "timestamp")
    (to_dict <$> rs)
    ((λ r, AuditRecordResponse.dict (to_response_model r)) <$> rs).
Proof.
  induction rs as [|r rs IH]; cbn [fmap list_fmap]; constructor; [reflexivity | done].
Qed.

(** The claim fails as stated.  In the store left by one successful create
    request, no document has a [record_type] field, so the documents "whose
    record_type equals audit_record" are none; yet the retrieval returns the
    record that was created: the discriminator the query tests is [type]. *)
Lemma retrieval_not_by_record_type :
  Cosmos.partition Scenario.st1 "CUST1" = [to_dict Scenario.event_frozen] ∧
  filter (λ d : gmap string string,
            d !! "customerId" = Some "CUST1" ∧
            d !! "record_type" = Some "audit_record")
    (Cosmos.partition Scenario.st1 "CUST1") = [] ∧
  (get_audit_records_by_customer Cosmos.memory "CUST1"
     Scenario.st1 Scenario.clk1).1.1
  = Ok [AuditRecordResponse.dict (to_response_model Scenario.event_frozen)].
Proof. compute_done. Qed.

(** C7 (amended). The retrieval consults the container through one call
    only: the query on [customerId] and on the discriminator field [type]
    (bound to the given customer id and to ["audit_record"]; there is no
    [record_type] field), ordered by [timestamp] ascending, with the
    customer id as partition key and cross-partition querying off.  For any
    container: when the answer holds at least one document, the documents
    being stored audit records, the operation returns their response
    projections in the order of the answer, each with the time stamp of its
    document, so ordered by time stamp ascending when the answer is.  On the
    reference container, which executes the query as written: nothing
    outside the partition of the customer id influences the result; two
    stores whose partitions hold the same documents in different orders are
    answered with the same documents and the same sequence of time stamps;
    and when at least one document of the partition is an audit document of
    the customer, these being stored audit records, the answer consists of
    exactly these documents in ascending time stamp order and the operation
    returns their response projections, ordered by time stamp ascending. *)
Theorem retrieval_query_contract (customer_id : string) (clk : Clock.t) :
  (∀ (S : Type) (c c' : Cosmos.Container S) (st : S),
     Cosmos.query_items c query (parameters customer_id) customer_id false st
     = Cosmos.query_items c' query (parameters customer_id) customer_id false st →
     get_audit_records_by_customer c customer_id st clk
     = get_audit_records_by_customer c' customer_id st clk) ∧
  (∀ (S : Type) (c : Cosmos.Container S) (st st' : S) (rs : list t),
     Cosmos.query_items c query (parameters customer_id) customer_id false st
     = (Ok (to_dict <$> rs), st') →
     rs ≠ [] → Forall instance rs →
     let records := (λ r, AuditRecordResponse.dict (to_response_model r)) <$> rs in
     (get_audit_records_by_customer c customer_id st clk).1.1 = Ok records ∧
     (λ d : gmap string string, d !! "timestamp") <$> records
     = (λ d : gmap string string, d !! "timestamp") <$> (to_dict <$> rs) ∧
     (Sorted by_timestamp (to_dict <$> rs) → Sorted by_timestamp records)) ∧
  (∀ st st' : Cosmos.store,
     Cosmos.partition st customer_id = Cosmos.partition st' customer_id →
     (get_audit_records_by_customer Cosmos.memory customer_id st clk).1.1
     = (get_audit_records_by_customer Cosmos.memory customer_id st' clk).1.1) ∧
  (∀ (st st' : Cosmos.store) (items items' : list (gmap string string)),
     Cosmos.partition st customer_id ≡ₚ Cosmos.partition st' customer_id →
     (Cosmos.query_items Cosmos.memory query (parameters customer_id)
        customer_id false st).1 = Ok items →
     (Cosmos.query_items Cosmos.memory query (parameters customer_id)
        customer_id false st').1 = Ok items' →
     items ≡ₚ items' ∧
     (λ d : gmap string string, d !! "timestamp") <$> items
     = (λ d : gmap string string, d !! "timestamp") <$> items') ∧
  (∀ st : Cosmos.store,
     let matching :=
       filter (audit_of customer_id) (Cosmos.partition st customer_id) in
     matching ≠ [] → Forall stored_record matching →
     ∃ rs : list t,
       let records :=
         (λ r, AuditRecordResponse.dict (to_response_model r)) <$> rs in
       Forall instance rs ∧
       (Cosmos.query_items Cosmos.memory query (parameters customer_id)
          customer_id false st).1 = Ok (to_dict <$> rs) ∧
       to_dict <$> rs ≡ₚ matching ∧
       Sorted by_timestamp (to_dict <$> rs) ∧
       (get_audit_records_by_customer Cosmos.memory customer_id st clk).1.1
         = Ok records ∧
       Sorted by_timestamp records).
Proof.
  assert (∀ (S : Type) (c : Cosmos.Container S) (st st' : S) (rs : list t),
            Cosmos.query_items c query (parameters customer_id) customer_id false st
            = (Ok (to_dict <$> rs), st') →
            rs ≠ [] → Forall instance rs →
            (get_audit_records_by_customer c customer_id st clk).1.1
            = Ok ((λ r, AuditRecordResponse.dict (to_response_model r)) <$> rs))
    as Hwritten.
  { intros S c st st' rs Hq Hne Hall.
    rewrite (get_audit_records_unfold _ _ _ _ _ _ Hq).
    destruct rs as [|r rs]; [done |].
    pose proof (convert_written (r :: rs) [] clk Hall) as Hc.
    cbn [fmap list_fmap] in *. rewrite Hc. cbn [app]. f_equal. symmetry.
    exact (list_fmap_compose to_response_model AuditRecordResponse.dict (r :: rs)). }
  assert (∀ rs : list t,
            Sorted by_timestamp (to_dict <$> rs) →
            Sorted by_timestamp
              ((λ r, AuditRecordResponse.dict (to_response_model r)) <$> rs))
    as Hkeeps.
  { intros rs. apply sorted_projections, written_projections_timestamps. }
  split; [|split; [|split; [|split]]].
  - intros S c c' st Hq. unfold get_audit_records_by_customer. by rewrite Hq.
  - intros S c st st' rs Hq Hne Hall records. subst records.
    split; [by eapply Hwritten |]. split; [|apply Hkeeps].
    clear. induction rs as [|r rs IH]; [reflexivity |].
    cbn [fmap list_fmap] in *. by f_equal.
  - intros st st' Hp. rewrite !get_audit_records_memory. cbv zeta. by rewrite Hp.
  - intros st st' items items' Hp.
    change (Cosmos.query_items Cosmos.memory) with Cosmos.mem_query_items.
    rewrite !mem_query_items_audit. cbn [fst]. intros [= <-] [= <-].
    assert (∀ l, Sorted by_timestamp
                   (Cosmos.sort (Cosmos.doc_leb "timestamp" true) l)) as Hsorted.
    { intros l. apply sort_sorted. intros a b. apply key_leb_total. }
    assert (Cosmos.sort (Cosmos.doc_leb "timestamp" true)
              (filter (audit_of customer_id) (Cosmos.partition st customer_id))
            ≡ₚ Cosmos.sort (Cosmos.doc_leb "timestamp" true)
                 (filter (audit_of customer_id) (Cosmos.partition st' customer_id)))
      as Hperm by (by rewrite !sort_perm, Hp).
    split; [done |]. by apply sorted_timestamps_unique.
  - intros st matching Hne Hall.
    set (items := Cosmos.sort (Cosmos.doc_leb "timestamp" true) matching).
    assert (items ≡ₚ matching) as Hperm by apply sort_perm.
    assert (Sorted by_timestamp items) as Hsorted.
    { apply sort_sorted. intros a b. apply key_leb_total. }
    assert (Forall stored_record items) as Hall' by (by rewrite Hperm).
    destruct (stored_records_written items Hall') as (rs & Hrs & Hitems).
    assert (Cosmos.query_items Cosmos.memory query (parameters customer_id)
              customer_id false st = (Ok (to_dict <$> rs), st)) as Hq.
    { change (Cosmos.query_items Cosmos.memory) with Cosmos.mem_query_items.
      rewrite mem_query_items_audit. fold matching. fold items. by rewrite Hitems. }
    assert (rs ≠ []) as Hrs_ne.
    { intros ->. cbn in Hitems. rewrite Hitems in Hperm.
      apply Permutation_nil_l in Hperm. congruence. }
    exists rs. cbv zeta. rewrite <- Hitems.
    split; [done |]. split; [by rewrite Hq, Hitems |]. split; [done |].
    split; [done |]. split; [by eapply Hwritten |].
    apply Hkeeps. by rewrite <- Hitems.
Qed.

Lemma retrieval_query_contract_witness :
  ∃ rs : list t,
    to_dict <$> rs ≡ₚ [to_dict Scenario.e3; to_dict Scenario.e1; to_dict Scenario.e2] ∧
    (get_audit_records_by_customer Cosmos.memory "CUST1"
       Scenario.shuffled Scenario.clk0).1.1
    = Ok ((λ r, AuditRecordResponse.dict (to_response_model r)) <$> rs) ∧
    Sorted by_timestamp
      ((λ r, AuditRecordResponse.dict (to_response_model r)) <$> rs).
Proof.
  destruct (retrieval_query_contract "CUST1" Scenario.clk0)
    as (_ & _ & _ & _ & Hmem).
  assert (filter (audit_of "CUST1") (Cosmos.partition Scenario.shuffled "CUST1")
          = [to_dict Scenario.e3; to_dict Scenario.e1; to_dict Scenario.e2]) as Hm
    by compute_done.
  destruct (Hmem Scenario.shuffled) as (rs & _ & _ & H1 & _ & H2 & H3).
  - rewrite Hm. discriminate.
  - rewrite Hm.
    repeat (constructor; [eexists; split; [apply instance_init | reflexivity] |]).
    constructor.
  - exists rs. rewrite Hm in H1. by repeat split.
Defined.

(** ** The health probe *)

Import Database.

Lemma check_cosmos_connection_cases (env : Env) (sdk : Sdk) (g : global) :
  let d := (check_cosmos_connection env sdk g).1 in
  (d !! "status" = Some (PStr "connected") ∧ d !! "error" = None) ∨
  (d !! "status" = Some (PStr "disconnected") ∧
   d !! "database_name" = None ∧ ∃ m, d !! "error" = Some (PStr m)).
Proof.
  unfold check_cosmos_connection.
  destruct (get_cosmos_client env sdk g) as [client g'].
  destruct (_ ← client; database_read sdk) as [props|e]; cbn [fst].
  - left. by split.
  - right. repeat split. by eexists.
Qed.

(** What the health operation always does: it returns a response (it has no
    failure outcome), stamped with the clock reading taken during the call,
    whose status is ["healthy"] exactly when the probe reports
    ["connected"] and ["unhealthy"] otherwise. *)
Lemma health_check_status (env : Env) (sdk : Sdk) (g : global) (clk : Clock.t) :
  let probe := (check_cosmos_connection env sdk g).1 in
  let response := (health_check env sdk g clk).1.1 in
  response !! "timestamp"
    = Some (PStr (Clock.isoformat (Clock.utcnow clk).1 +:+ "Z")) ∧
  response !! "database" = probe !! "status" ∧
  (probe !! "status" = Some (PStr "connected") →
     response !! "status" = Some (PStr "healthy")) ∧
  (probe !! "status" ≠ Some (PStr "connected") →
     response !! "status" = Some (PStr "unhealthy")).
Proof.
  intros probe response. subst probe response. unfold health_check.
  pose proof (check_cosmos_connection_cases env sdk g) as Hcases.
  destruct (check_cosmos_connection env sdk g) as [d g']. cbn [fst] in *.
  unfold status_getitem.
  destruct Hcases as [[Hs _]|[Hs _]]; rewrite Hs; cbn; by repeat split.
Qed.

(** C8 (divergence). Whenever the probe catches a fault, with message [m],
    the health response is ["unhealthy"] with database ["disconnected"] and
    a null database name, but it has no ["error"] entry: the message the
    probe recorded is not passed on. *)
Theorem health_check_drops_fault_message
    (env : Env) (sdk : Sdk) (g : global) (clk : Clock.t) (m : string) :
  (check_cosmos_connection env sdk g).1 !! "error" = Some (PStr m) →
  let response := (health_check env sdk g clk).1.1 in
  response !! "status" = Some (PStr "unhealthy") ∧
  response !! "database" = Some (PStr "disconnected") ∧
  response !! "database_name" = Some PNone ∧
  response !! "error" = None.
Proof.
  intros Herr response. subst response. unfold health_check.
  pose proof (check_cosmos_connection_cases env sdk g) as Hcases.
  destruct (check_cosmos_connection env sdk g) as [d g']. cbn [fst] in *.
  destruct Hcases as [[_ Hnone]|(Hs & Hn & _)]; [congruence |].
  unfold status_getitem, status_get. rewrite Hs, Hn. cbn. by case_decide.
Qed.

Lemma health_check_drops_fault_message_witness :
  (check_cosmos_connection Scenario.no_endpoint Scenario.sdk_ok None).1 !! "error"
    = Some (PStr "Missing required Cosmos DB environment variables") ∧
  (health_check Scenario.no_endpoint Scenario.sdk_ok None Scenario.clk0).1.1 !! "error"
    = None.
Proof.
  split; [reflexivity |].
  apply (health_check_drops_fault_message Scenario.no_endpoint Scenario.sdk_ok None
           Scenario.clk0 "Missing required Cosmos DB environment variables").
  reflexivity.
Defined.

(** ** The scenario, evaluated *)

Example shuffled_retrieval_order :
  match (get_audit_records_by_customer Cosmos.memory "CUST1"
           Scenario.shuffled Scenario.clk0).1.1 with
  | Ok records =>
      (λ r : gmap string string, r !! "timestamp") <$> records
      = [Some "2024-03-07T09:05:01Z"; Some "2024-03-07T09:05:03Z";
         Some "2024-03-07T09:05:05Z"]
  | Raise _ => False
  end.
Proof. vm_compute. reflexivity. Qed.

Example unknown_customer_not_found :
  (get_audit_records_by_customer Cosmos.memory "CUST9"
     Scenario.shuffled Scenario.clk0).1.1
  = Raise (HTTPException 404 "No audit records found for customer: CUST9").
Proof. vm_compute. reflexivity. Qed.

Example first_create_succeeds :
  match Scenario.after_first.1.1 with
  | Ok c => message c = "Audit record created successfully" ∧
            record c !! "customer_id" = Some "CUST1" ∧
            record c !! "audit_id" = Some "AUD20240307090500"
  | Raise _ => False
  end.
Proof. vm_compute. done. Qed.

Example healthy_when_connected :
  (health_check Scenario.configured Scenario.sdk_ok None Scenario.clk0).1.1
  = <["status" := PStr "healthy"]> (
    <["timestamp" := PStr "2024-03-07T09:05:00Z"]> (
    <["database" := PStr "connected"]> (
    <["database_name" := PStr "claims"]> (
    <["environment" := PStr "dev"]> ∅)))).
Proof. vm_compute. reflexivity. Qed.

Example unhealthy_when_read_fails :
  (health_check Scenario.configured Scenario.sdk_down None Scenario.clk0).1.1
  = <["status" := PStr "unhealthy"]> (
    <["timestamp" := PStr "2024-03-07T09:05:00Z"]> (
    <["database" := PStr "disconnected"]> (
    <["database_name" := PNone]> (
    <["environment" := PStr "dev"]> ∅)))).
Proof. vm_compute. reflexivity. Qed.

(** * Further properties of the code *)

(** ** [cosmos_database.py] *)

Lemma truthy_configured (v : option string) :
  truthy v = true ↔ configured_setting v.
Proof.
  unfold truthy, configured_setting. destruct v as [s|].
  - rewrite negb_true_iff, bool_decide_eq_false. split.
    + intros Hs. by exists s.
    + by intros (s' & [= <-] & Hs).
  - split; [discriminate | by intros (s & ? & _)].
Qed.

(** X1. The client constructor validates the three settings before
    anything else: if one of them is unset or empty it raises the
    [ValueError] whatever the SDK would do.  With the three settings in
    place it calls the SDK constructor, creates the database and creates
    the container, in this order; the first of these calls that fails
    decides the exception, unchanged, and if none fails the client holds the
    three settings. *)
Theorem client_init_validates_settings (env : Env) (sdk : Sdk) :
  (¬ (configured_setting (COSMOS_DB_ENDPOINT env) ∧
      configured_setting (COSMOS_DB_KEY env) ∧
      configured_setting (COSMOS_DB_DATABASE_NAME env)) →
   CosmosDBClient__init__ env sdk
   = Raise (ValueError "Missing required Cosmos DB environment variables")) ∧
  (∀ e k n,
     COSMOS_DB_ENDPOINT env = Some e → e ≠ EmptyString →
     COSMOS_DB_KEY env = Some k → k ≠ EmptyString →
     COSMOS_DB_DATABASE_NAME env = Some n → n ≠ EmptyString →
     CosmosDBClient__init__ env sdk =
       match CosmosClient sdk e k with
       | Raise x => Raise x
       | Ok _ =>
           match create_database_if_not_exists sdk n with
           | Raise x => Raise x
           | Ok _ =>
               match create_container_if_not_exists sdk
                       "insurance_claims_audit" "/customerId" with
               | Raise x => Raise x
               | Ok _ => Ok {| endpoint := e; key := k; database_name := n |}
               end
           end
       end).
Proof.
  split.
  - intros Hnot. unfold CosmosDBClient__init__.
    destruct (forallb truthy _) eqn:Hall; [|reflexivity].
    destruct Hnot. cbn [forallb] in Hall.
    rewrite !andb_true_iff in Hall. destruct Hall as (H1 & H2 & H3 & _).
    by rewrite <- !truthy_configured.
  - intros e k n He Hne Hk Hnk Hn Hnn. unfold CosmosDBClient__init__.
    rewrite He, Hk, Hn. cbn [forallb truthy].
    rewrite !bool_decide_eq_false_2 by done. cbn [negb andb].
    unfold _setup_database. cbn.
    destruct (CosmosClient sdk e k) as [[]|x]; [|reflexivity].
    destruct (create_database_if_not_exists sdk n) as [[]|x]; [|reflexivity].
    by destruct (create_container_if_not_exists sdk _ _) as [[]|x].
Qed.

Lemma client_init_validates_settings_witness :
  CosmosDBClient__init__ Scenario.no_endpoint Scenario.sdk_down
  = Raise (ValueError "Missing required Cosmos DB environment variables").
Proof.
  apply (client_init_validates_settings Scenario.no_endpoint Scenario.sdk_down).
  intros [(s & Hs & _) _]. vm_compute in Hs. discriminate.
Defined.

(** X2. The process-wide client is created lazily and cached on success
    only.  Once a call has returned a client, that client is the global one
    and every later call returns it without consulting the settings or the
    SDK again; a call that fails leaves the global unset, so the next call
    builds the client afresh. *)
Theorem get_cosmos_client_caches_success
    (env : Env) (sdk : Sdk) (g g' : global) (r : result CosmosDBClient) :
  get_cosmos_client env sdk g = (r, g') →
  (∀ c, r = Ok c →
     g' = Some c ∧
     ∀ env' sdk', get_cosmos_client env' sdk' g' = (Ok c, g')) ∧
  (∀ x, r = Raise x →
     g = None ∧ g' = None ∧
     ∀ env' sdk',
       get_cosmos_client env' sdk' g'
       = match CosmosDBClient__init__ env' sdk' with
         | Ok c => (Ok c, Some c)
         | Raise y => (Raise y, None)
         end).
Proof.
  unfold get_cosmos_client. intros H. split.
  - intros c ->. destruct g as [c0|].
    + by injection H as -> <-.
    + destruct (CosmosDBClient__init__ env sdk) as [c1|x]; [|discriminate].
      by injection H as -> <-.
  - intros x ->. destruct g as [c0|]; [discriminate |].
    destruct (CosmosDBClient__init__ env sdk) as [c1|y]; [discriminate |].
    by injection H as _ <-.
Qed.

Lemma get_cosmos_client_caches_success_witness :
  ∃ c,
    get_cosmos_client Scenario.configured Scenario.sdk_ok None = (Ok c, Some c) ∧
    get_cosmos_client Scenario.no_endpoint Scenario.sdk_down (Some c)
    = (Ok c, Some c).
Proof.
  eexists. split; [reflexivity |].
  eapply (get_cosmos_client_caches_success Scenario.configured Scenario.sdk_ok None);
    reflexivity.
Defined.

(** X3. The probe reports ["connected"] exactly when it obtains the client
    and the database read succeeds; it then reports the database's [id]
    (or [None] if the properties have none) and no error.  In every other
    case it reports ["disconnected"] with the text of the fault, be it the
    constructor's or the read's.  A failed probe does not cache anything it
    did not have: the global client is afterwards what [get_cosmos_client]
    left. *)
Theorem check_cosmos_connection_report (env : Env) (sdk : Sdk) (g : global) :
  let probe := check_cosmos_connection env sdk g in
  let client := get_cosmos_client env sdk g in
  probe.2 = client.2 ∧
  match client.1, database_read sdk with
  | Ok _, Ok props =>
      probe.1 = <["status" := PStr "connected"]> (
                <["database_name" := get_value props "id"]> ∅)
  | Ok _, Raise x | Raise x, _ =>
      probe.1 = <["status" := PStr "disconnected"]> (
                <["error" := PStr (Py.str x)]> ∅)
  end.
Proof.
  unfold check_cosmos_connection.
  destruct (get_cosmos_client env sdk g) as [[c|x] g']; cbn [fst snd mbind result_bind].
  - by destruct (database_read sdk) as [props|y].
  - by destruct (database_read sdk).
Qed.

(** X4. The health response always has the same five entries, [status],
    [timestamp], [database], [database_name] and [environment], and never an
    [error] entry.  [database] repeats the probe's status, [status] is
    ["healthy"] exactly when that is ["connected"], [environment] is the
    [ENV] setting or ["production"], the time stamp is the one clock reading
    of the call, and the global client is left as the probe left it. *)
Theorem health_check_response_shape
    (env : Env) (sdk : Sdk) (g : global) (clk : Clock.t) :
  let probe := check_cosmos_connection env sdk g in
  let answer := health_check env sdk g clk in
  let response := answer.1.1 in
  dom response
    = {[ "status"; "timestamp"; "database"; "database_name"; "environment" ]} ∧
  response !! "database" = probe.1 !! "status" ∧
  (response !! "database" = Some (PStr "connected")
   ∨ response !! "database" = Some (PStr "disconnected")) ∧
  (response !! "status" = Some (PStr "healthy")
   ↔ response !! "database" = Some (PStr "connected")) ∧
  (response !! "status" = Some (PStr "unhealthy")
   ↔ response !! "database" = Some (PStr "disconnected")) ∧
  response !! "database_name" = Some (default PNone (probe.1 !! "database_name")) ∧
  response !! "environment" = Some (PStr (default "production" (ENV env))) ∧
  response !! "timestamp"
    = Some (PStr (Clock.isoformat (next_reading clk) +:+ "Z")) ∧
  answer.1.2 = probe.2 ∧
  answer.2 = (Clock.utcnow clk).2.
Proof.
  intros probe answer response. subst probe answer response. unfold health_check.
  pose proof (check_cosmos_connection_cases env sdk g) as Hcases.
  destruct (check_cosmos_connection env sdk g) as [d g']. cbn [fst snd] in *.
  unfold status_getitem, status_get, timestamp_now, next_reading, Clock.utcnow.
  destruct Hcases as [[Hs _]|[Hs _]]; rewrite Hs; cbn [fst snd];
    (split; [rewrite !dom_insert_L, dom_empty_L; set_solver |]);
    repeat split; try done; auto; try discriminate.
Qed.

(** ** [main.py]: the create handler *)

Lemma extract_customer_id_ok (claim_id : string) :
  ∃ customer_id, Derivation.extract_customer_id_from_claim claim_id = Ok customer_id.
Proof.
  unfold Derivation.extract_customer_id_from_claim.
  destruct (Py.contains "_" claim_id) eqn:Hc.
  - apply contains_underscore, first_underscore in Hc as (pre & post & -> & Hpre).
    unfold Py.split. case_decide; [discriminate |].
    cbn [mbind result_bind]. rewrite split_from_first by done. by eexists.
  - destruct (6 <=? String.length claim_id); by eexists.
Qed.

Lemma init_generated (a b c d e f g : string) (clk : Clock.t) :
  __init__ a b c d e f g None clk =
    ({| claim_id := a; customer_id := b; customer_name := c; process_name := d;
        process_status := e; process_details := f; agent_name := g;
        audit_id := "AUD" +:+ Clock.strftime_YmdHMS (next_reading clk);
        timestamp := Clock.isoformat (next_reading (Clock.utcnow clk).2) +:+ "Z";
        created_at := Clock.isoformat (next_reading (Clock.utcnow clk).2) +:+ "Z";
        updated_at := Clock.isoformat (next_reading (Clock.utcnow clk).2) +:+ "Z";
        id := b +:+ "_" +:+ "AUD" +:+ Clock.strftime_YmdHMS (next_reading clk) |},
     (Clock.utcnow (Clock.utcnow clk).2).2).
Proof. reflexivity. Qed.



(** X6. Whatever the container does, the create operation ends in one of
    three ways: success, [HTTPException] 409 or [HTTPException] 500; no
    other exception leaves it.  It succeeds exactly when [create_item]
    does, and in every case it has read the clock exactly twice. *)
Theorem create_outcomes {S : Type} (container : Cosmos.Container S)
    (request : AuditRecordRequest.t) (st : S) (clk : Clock.t) :
  let answer := create_audit_record container request st clk in
  ((∃ c, answer.1.1 = Ok c) ∨
   (∃ d, answer.1.1 = Raise (HTTPException 409 d)) ∨
   (∃ d, answer.1.1 = Raise (HTTPException 500 d))) ∧
  answer.2 = (Clock.utcnow (Clock.utcnow clk).2).2.
Proof.
  destruct (extract_customer_id_ok (AuditRecordRequest.claim_id request))
    as [customer_id Hcid].
  cbv zeta. rewrite (create_audit_record_unfold _ _ _ _ _ Hcid). cbv zeta.
  rewrite init_generated. cbn [fst snd]. split; [|reflexivity].
  destruct (Cosmos.create_item container _ false st) as [[item|e] st']; cbn [fst].
  - left. by eexists.
  - right. unfold create_handlers.
    destruct e as [sc m| | | | |]; try (right; by eexists).
    destruct (sc =? 409); [left | right]; by eexists.
Qed.


(** ** [main.py]: the retrieval handler *)

Lemma convert_raises (items : list (gmap string string))
    (acc : list AuditRecordResponse.t) (clk : Clock.t) (e : pyexn) :
  (convert items acc clk).1 = Raise e → ∃ k, e = KeyError k.
Proof.
  revert acc clk. induction items as [|item items IH]; intros acc clk H.
  - discriminate.
  - cbn [convert] in H.
    destruct (decide (reconstructible item)) as [Hrec|Hnot].
    + destruct (reconstructible_from_dict item clk Hrec) as (r & clk1 & Hr).
      rewrite Hr in H. eauto.
    + destruct (from_dict_missing_field item clk Hnot) as (k & _ & Hk).
      rewrite Hk in H. injection H as <-. eauto.
Qed.

(** X8. The retrieval ends in success or in an [HTTPException], never in
    another exception.  A Cosmos error of the query becomes 500 whatever
    its own status (a 404 or 409 of the store is not passed on); any other
    fault of the query becomes 500 with its text; only an [HTTPException]
    raised by the query itself passes through unchanged.  If the query
    raises no [HTTPException], the status is 404 or 500, and it is 404
    exactly when the query answered with no document. *)
Theorem retrieval_outcomes {S : Type} (container : Cosmos.Container S)
    (customer_id : string) (st : S) (clk : Clock.t) :
  let call :=
    Cosmos.query_items container query (parameters customer_id)
      customer_id false st in
  let outcome := (get_audit_records_by_customer container customer_id st clk).1.1 in
  ((∃ records, outcome = Ok records) ∨ (∃ sc d, outcome = Raise (HTTPException sc d))) ∧
  (∀ sc m, call.1 = Raise (CosmosHttpResponseError sc m) →
     outcome = Raise (HTTPException 500 ("Database error: " +:+ m))) ∧
  (∀ sc d, call.1 = Raise (HTTPException sc d) →
     outcome = Raise (HTTPException sc d)) ∧
  (∀ e, call.1 = Raise e →
     (∀ sc m, e ≠ CosmosHttpResponseError sc m) → (∀ sc d, e ≠ HTTPException sc d) →
     outcome = Raise (HTTPException 500
                        ("Failed to retrieve audit records: " +:+ Py.str e))) ∧
  ((∀ sc d, call.1 ≠ Raise (HTTPException sc d)) →
   ∀ sc d, outcome = Raise (HTTPException sc d) →
     (sc = 404 ∧ call.1 = Ok []) ∨ (sc = 500 ∧ call.1 ≠ Ok [])).
Proof.
  intros call outcome. subst call outcome. unfold get_audit_records_by_customer.
  destruct (Cosmos.query_items container query (parameters customer_id)
              customer_id false st) as [[items|e] st']; cbn [fst].
  - destruct items as [|item items]; cbn [fst get_handlers].
    + split; [right; by eexists _, _ |]. repeat split; try discriminate.
      intros _ sc d [= <- _]. by left.
    + destruct (convert (item :: items) [] clk) as [[recs|e] clk1] eqn:Hc; cbn [fst].
      * split; [left; by eexists |]. repeat split; discriminate.
      * destruct (convert_raises (item :: items) [] clk e) as [k ->];
          [by rewrite Hc |].
        split; [right; by eexists _, _ |]. repeat split; try discriminate.
        intros _ sc d [= <- _]. by right.
  - split.
    { right. destruct e; by eexists _, _. }
    split; [by intros sc m [= ->] |]. split; [by intros sc d [= ->] |]. split.
    + intros e' [= <-] Hc Hh. destruct e as [sc m|sc d| | | |]; try reflexivity.
      * by destruct (Hc sc m).
      * by destruct (Hh sc d).
    + intros Hno sc d Hout. right.
      destruct e as [sc' m|sc' d'| | | |]; cbn [get_handlers] in Hout;
        try (injection Hout as <- _; by split).
      by destruct (Hno sc' d').
Qed.

Lemma retrieval_outcomes_witness :
  (get_audit_records_by_customer
     {| Cosmos.create_item := λ body _ (st : unit), (Ok body, st);
        Cosmos.query_items := λ _ _ _ _ (st : unit),
          (Raise (CosmosHttpResponseError 404 "Resource Not Found"), st) |}
     "CUST1" () Scenario.clk0).1.1
  = Raise (HTTPException 500 "Database error: Resource Not Found").
Proof.
  pose proof (retrieval_outcomes
    {| Cosmos.create_item := λ body _ (st : unit), (Ok body, st);
       Cosmos.query_items := λ _ _ _ _ (st : unit),
         (Raise (CosmosHttpResponseError 404 "Resource Not Found"), st) |}
    "CUST1" () Scenario.clk0) as (_ & Hcosmos & _).
  apply (Hcosmos 404). reflexivity.
Defined.

(** ** [models/cosmos_models.py]: reconstruction and projection *)

(** X9. [from_dict] fails exactly on the documents that lack one of the
    eight indexed fields: it then raises [KeyError] for the first missing
    one, in the order [claim_id], [customerId], [customer_name],
    [process_name], [process_status], [process_details], [agent_name],
    [audit_id], without reading the clock.  On every other document it
    returns a record. *)
Theorem from_dict_first_missing (data : gmap string string) (clk : Clock.t) :
  match list_find (λ k, data !! k = None) required_fields with
  | Some (_, k) => from_dict data clk = (Raise (KeyError k), clk)
  | None => ∃ r clk', from_dict data clk = (Ok r, clk')
  end.
Proof.
  unfold from_dict, getitem, required_fields.
  cbv beta iota fix delta [list_find].
  destruct (data !! "claim_id") as [a|]; [|reflexivity].
  destruct (data !! "customerId") as [b|]; [|reflexivity].
  destruct (data !! "customer_name") as [c|]; [|reflexivity].
  destruct (data !! "process_name") as [d|]; [|reflexivity].
  destruct (data !! "process_status") as [e|]; [|reflexivity].
  destruct (data !! "process_details") as [f|]; [|reflexivity].
  destruct (data !! "agent_name") as [g|]; [|reflexivity].
  destruct (data !! "audit_id") as [h|]; [|reflexivity].
  repeat (case_decide; [discriminate |]). cbn.
  destruct (__init__ a b c d e f g (Some h) clk) as [r clk']. eauto.
Qed.

Lemma document_fields_lookups (data data' : gmap string string) :
  (∀ k, k ∈ document_fields → data !! k = data' !! k) →
  data !! "claim_id" = data' !! "claim_id" ∧
  data !! "customerId" = data' !! "customerId" ∧
  data !! "customer_name" = data' !! "customer_name" ∧
  data !! "process_name" = data' !! "process_name" ∧
  data !! "process_status" = data' !! "process_status" ∧
  data !! "process_details" = data' !! "process_details" ∧
  data !! "agent_name" = data' !! "agent_name" ∧
  data !! "audit_id" = data' !! "audit_id" ∧
  data !! "timestamp" = data' !! "timestamp" ∧
  data !! "created_at" = data' !! "created_at" ∧
  data !! "updated_at" = data' !! "updated_at" ∧
  data !! "id" = data' !! "id".
Proof.
  intros H. repeat split; apply H; unfold document_fields, required_fields;
    cbn [app]; set_solver.
Qed.

(** X10. [from_dict] looks at twelve fields only.  Two documents that agree
    on them are reconstructed alike, whatever else they contain; in
    particular the discriminator [type] is neither required nor checked,
    and fields added by the store are ignored. *)
Theorem from_dict_reads_document_fields (data data' : gmap string string)
    (clk : Clock.t) :
  (∀ k, k ∈ document_fields → data !! k = data' !! k) →
  from_dict data clk = from_dict data' clk.
Proof.
  intros H. apply document_fields_lookups in H
    as (H1 & H2 & H3 & H4 & H5 & H6 & H7 & H8 & H9 & H10 & H11 & H12).
  unfold from_dict, getitem, get.
  by rewrite H1, H2, H3, H4, H5, H6, H7, H8, H9, H10, H11, H12.
Qed.

Lemma from_dict_reads_document_fields_witness :
  from_dict (<["type" := "note"]> (<["_etag" := "0800"]> (to_dict Scenario.event)))
    Scenario.frozen
  = from_dict (to_dict Scenario.event) Scenario.frozen.
Proof.
  apply (from_dict_reads_document_fields _ (to_dict Scenario.event) Scenario.frozen).
  assert ("type" ∉ document_fields) as Htype by compute_done.
  assert ("_etag" ∉ document_fields) as Hetag by compute_done.
  intros k Hk. rewrite !lookup_insert_ne; [reflexivity | |]; by intros <-.
Defined.

(** X11. What a successful [from_dict] returns.  The seven descriptive
    fields are the stored ones; the audit id is the stored one unless that
    is empty, in which case it is generated; each of the three time stamps
    is the stored one if the document has it and otherwise the ISO form of
    the constructor's clock reading; the id is the stored one if the
    document has it and otherwise customer id, underscore, audit id.  The
    clock is read once more than settling the audit id takes. *)
Theorem from_dict_defaults (data : gmap string string) (clk clk' : Clock.t) (r : t) :
  from_dict data clk = (Ok r, clk') →
  let settled := audit_id_or_generate (data !! "audit_id") clk in
  let stamp := Clock.isoformat (next_reading settled.2) +:+ "Z" in
  data !! "claim_id" = Some (claim_id r) ∧
  data !! "customerId" = Some (customer_id r) ∧
  data !! "customer_name" = Some (customer_name r) ∧
  data !! "process_name" = Some (process_name r) ∧
  data !! "process_status" = Some (process_status r) ∧
  data !! "process_details" = Some (process_details r) ∧
  data !! "agent_name" = Some (agent_name r) ∧
  audit_id r = settled.1 ∧
  timestamp r = default stamp (data !! "timestamp") ∧
  created_at r = default stamp (data !! "created_at") ∧
  updated_at r = default stamp (data !! "updated_at") ∧
  id r = default (customer_id r +:+ "_" +:+ audit_id r) (data !! "id") ∧
  clk' = (Clock.utcnow settled.2).2.
Proof.
  intros Hfrom.
  destruct (from_dict_inv _ _ _ _ Hfrom)
    as (a & b & c & d & e & f & g & h & Ha & Hb & Hc & Hd & He & Hf & Hg & Hh).
  rewrite (from_dict_ok _ _ _ _ _ _ _ _ _ _ Ha Hb Hc Hd He Hf Hg Hh) in Hfrom.
  rewrite Hh. unfold __init__ in Hfrom. cbv zeta.
  destruct (audit_id_or_generate (Some h) clk) as [aid clk1].
  cbn [fst snd] in *. injection Hfrom as <- <-. by cbn.
Qed.

Lemma from_dict_defaults_witness :
  let data := delete "timestamp" (delete "id" (to_dict Scenario.event)) in
  let r := {| claim_id := "CUST1_001"; customer_id := "CUST1";
              customer_name := "Ann"; process_name := "intake";
              process_status := "pending"; process_details := "received";
              agent_name := "bot"; audit_id := "AUD20240307090500";
              timestamp := "2024-03-07T09:05:00Z";
              created_at := "2024-03-07T09:05:01Z";
              updated_at := "2024-03-07T09:05:01Z";
              id := "CUST1_AUD20240307090500" |} in
  from_dict data Scenario.frozen = (Ok r, (Clock.utcnow Scenario.frozen).2) ∧
  timestamp r
  = default (Clock.isoformat (next_reading Scenario.frozen) +:+ "Z")
      (data !! "timestamp") ∧
  id r = default (customer_id r +:+ "_" +:+ audit_id r) (data !! "id").
Proof.
  intros data r.
  assert (from_dict data Scenario.frozen = (Ok r, (Clock.utcnow Scenario.frozen).2))
    as Hfrom by (vm_compute; reflexivity).
  split; [exact Hfrom |].
  destruct (from_dict_defaults _ _ _ _ Hfrom)
    as (_ & _ & _ & _ & _ & _ & _ & _ & Ht & _ & _ & Hi & _).
  split; [|exact Hi]. vm_compute in Ht. vm_compute. exact Ht.
Defined.

Lemma not_document_field (k : string) :
  k ≠ "id" → k ≠ "audit_id" → k ≠ "claim_id" → k ≠ "customerId" →
  k ≠ "customer_name" → k ≠ "process_name" → k ≠ "process_status" →
  k ≠ "process_details" → k ≠ "agent_name" → k ≠ "timestamp" →
  k ≠ "created_at" → k ≠ "updated_at" → k ∉ document_fields.
Proof.
  intros. unfold document_fields, required_fields. cbn [app].
  rewrite !not_elem_of_cons. repeat split; try done. apply not_elem_of_nil.
Qed.

(** X12. The round trip in the other direction.  If a document carries the
    twelve fields and its audit id is not empty, serialising the record
    reconstructed from it gives the document back on those twelve fields;
    the result has the discriminator [type] set to ["audit_record"]
    whatever the document had there, and no other field. *)
Theorem to_dict_from_dict (data : gmap string string) (clk clk' : Clock.t) (r : t) :
  from_dict data clk = (Ok r, clk') →
  data !! "audit_id" ≠ Some EmptyString →
  Forall (λ k, is_Some (data !! k)) ["timestamp"; "created_at"; "updated_at"; "id"] →
  ∀ k, to_dict r !! k =
         if decide (k = "type") then Some "audit_record"
         else if decide (k ∈ document_fields) then data !! k
         else None.
Proof.
  intros Hfrom Hne Hopt k.
  destruct (from_dict_inv _ _ _ _ Hfrom)
    as (a & b & c & d & e & f & g & h & Ha & Hb & Hc & Hd & He & Hf & Hg & Hh).
  rewrite (from_dict_ok _ _ _ _ _ _ _ _ _ _ Ha Hb Hc Hd He Hf Hg Hh) in Hfrom.
  assert (h ≠ EmptyString) as Hh' by congruence.
  unfold __init__ in Hfrom. rewrite audit_id_or_generate_kept in Hfrom by done.
  cbn in Hfrom. injection Hfrom as <- _.
  apply Forall_cons in Hopt as [[t Ht] Hopt].
  apply Forall_cons in Hopt as [[ca Hca] Hopt].
  apply Forall_cons in Hopt as [[u Hu] Hopt].
  apply Forall_cons in Hopt as [[i Hi] _].
  unfold to_dict, get. cbn [claim_id customer_id customer_name process_name
    process_status process_details agent_name audit_id timestamp created_at
    updated_at id].
  rewrite Ht, Hca, Hu, Hi. cbn [default from_option Datatypes.id].
  repeat (rewrite lookup_insert; case_decide;
          [subst k; rewrite ?decide_False by done;
           rewrite ?decide_True by compute_done; congruence |]).
  rewrite lookup_empty.
  rewrite decide_False by done.
  rewrite decide_False; [reflexivity |]. by apply not_document_field.
Qed.

Lemma to_dict_from_dict_witness :
  let data := <["type" := "note"]> (<["_etag" := "0800"]> (to_dict Scenario.event)) in
  from_dict data Scenario.frozen = (Ok Scenario.event, (Clock.utcnow Scenario.frozen).2) ∧
  to_dict Scenario.event !! "type" = Some "audit_record" ∧
  to_dict Scenario.event !! "_etag" = None.
Proof.
  intros data.
  assert (from_dict data Scenario.frozen
          = (Ok Scenario.event, (Clock.utcnow Scenario.frozen).2)) as Hfrom
    by (vm_compute; reflexivity).
  assert (data !! "audit_id" ≠ Some EmptyString) as Hne by (vm_compute; discriminate).
  assert (Forall (λ k, is_Some (data !! k))
            ["timestamp"; "created_at"; "updated_at"; "id"]) as Hopt
    by (repeat constructor; vm_compute; eauto).
  split; [exact Hfrom |]. split.
  - apply (to_dict_from_dict data _ _ _ Hfrom Hne Hopt "type").
  - apply (to_dict_from_dict data _ _ _ Hfrom Hne Hopt "_etag").
Defined.

(** X13. The response projection carries every attribute of the record
    under the attribute's own name, except the document id, which it
    leaves out: eleven fields, with the customer id under [customer_id]
    (not [customerId]) and neither [id] nor [type]. *)
Theorem response_projection_fields (r : t) (k : string) :
  AuditRecordResponse.dict (to_response_model r) !! k =
    if decide (k = "id") then None else vars r !! k.
Proof.
  unfold AuditRecordResponse.dict, to_response_model.
  cbn [AuditRecordResponse.audit_id AuditRecordResponse.claim_id
       AuditRecordResponse.customer_id AuditRecordResponse.customer_name
       AuditRecordResponse.process_name AuditRecordResponse.process_status
       AuditRecordResponse.process_details AuditRecordResponse.agent_name
       AuditRecordResponse.timestamp AuditRecordResponse.created_at
       AuditRecordResponse.updated_at].
  repeat (rewrite lookup_insert; case_decide; [subst k; reflexivity |]).
  rewrite lookup_empty. case_decide; [reflexivity |]. unfold vars.
  repeat (rewrite lookup_insert; case_decide; [congruence |]).
  by rewrite lookup_empty.
Qed.

(** ** [main.py]: edge cases of the customer-id derivation *)

Lemma append_length (a b : string) :
  String.length (a +:+ b) = String.length a + String.length b.
Proof. induction a as [|c a IH]; str_norm; simpl; [reflexivity | by rewrite IH]. Qed.

(** X14. Lengths and emptiness of the derived customer id, whatever
    [str.upper] is.  With an underscore in the claim id the customer id is
    strictly shorter than the claim id, and it is empty exactly when the
    claim id begins with the underscore; a claim id of fewer than six
    characters without underscore gives a customer id five characters
    longer.  So an empty customer id arises only from a claim id that
    starts with an underscore, or from [str.upper] returning the empty
    string on six characters. *)
Theorem extract_customer_id_edges
    (upper : list N → list N) (claim_id customer_id : list N) :
  PyUnicode.extract_customer_id_from_claim upper claim_id = Ok customer_id →
  (PyUnicode.underscore ∈ claim_id →
     length customer_id < length claim_id ∧
     (customer_id = [] ↔ ∃ rest, claim_id = PyUnicode.underscore :: rest)) ∧
  (PyUnicode.underscore ∉ claim_id → length claim_id < 6 →
     length customer_id = 5 + length claim_id) ∧
  (customer_id = [] →
     (∃ rest, claim_id = PyUnicode.underscore :: rest) ∨
     ((PyUnicode.underscore ∉ claim_id) ∧ (6 ≤ length claim_id) ∧
      upper (take 6 claim_id) = [])).
Proof.
  unfold PyUnicode.extract_customer_id_from_claim.
  destruct (PyUnicode.contains (PyUnicode.literal "_") claim_id) eqn:Hc.
  - apply contains_underscore_unicode in Hc.
    destruct (list_elem_of_split_l _ _ Hc) as (pre & post & -> & Hpre).
    unfold PyUnicode.split. case_decide; [discriminate |].
    cbn [mbind result_bind]. rewrite split_from_first_unicode by done.
    cbn [app]. intros [= <-].
    assert (pre = [] ↔ ∃ rest, pre ++ PyUnicode.underscore :: post
                                = PyUnicode.underscore :: rest) as Hempty.
    { split.
      - intros ->. by exists post.
      - intros [rest Hrest]. destruct pre as [|c pre]; [reflexivity |].
        injection Hrest as -> _. destruct Hpre. by left. }
    split; [|split].
    + intros _. split; [|done]. rewrite length_app. cbn [length]. lia.
    + intros Hn. by destruct Hn.
    + intros Hnil. left. by apply Hempty.
  - assert (PyUnicode.underscore ∉ claim_id) as Hno.
    { intros Hin. apply contains_underscore_unicode in Hin. congruence. }
    destruct (6 <=? length claim_id) eqn:Hlen.
    + apply Nat.leb_le in Hlen. intros [= <-]. split; [done |]. split; [lia |].
      intros Hnil. by right.
    + apply Nat.leb_gt in Hlen. intros [= <-]. split; [done |]. split.
      * intros _ _. cbn [length]. lia.
      * intros Hnil. discriminate Hnil.
Qed.

Lemma extract_customer_id_edges_witness :
  PyUnicode.extract_customer_id_from_claim PyUnicode.ascii_upper
    (PyUnicode.literal "_2024_17") = Ok [] ∧
  ∃ rest, PyUnicode.literal "_2024_17" = PyUnicode.underscore :: rest.
Proof.
  assert (PyUnicode.extract_customer_id_from_claim PyUnicode.ascii_upper
            (PyUnicode.literal "_2024_17") = Ok []) as H by reflexivity.
  split; [exact H |].
  destruct (extract_customer_id_edges PyUnicode.ascii_upper
              (PyUnicode.literal "_2024_17") [] H) as (_ & _ & [Hlead|Hup]);
    [reflexivity | exact Hlead |].
  destruct Hup as (Hno & _). destruct Hno. compute_done.
Defined.

(** *** Byte strings and code points *)









(** ** [models/cosmos_models.py]: audit ids and time stamps *)

Lemma numeral_value_zero (s : string) :
  numeral_value (String "0" s) = numeral_value s.
Proof.
  unfold numeral_value. cbn [NilEmpty.uint_of_string].
  by destruct (NilEmpty.uint_of_string s).
Qed.

Lemma numeral_value_digits (n : nat) : numeral_value (Clock.digits n) = Some n.
Proof.
  unfold numeral_value, Clock.digits. rewrite NilEmpty.usu. cbn.
  by rewrite DecimalNat.Unsigned.of_to.
Qed.

(** Padding does not change the number a numeral denotes. *)
Lemma numeral_value_zfill (w n : nat) : numeral_value (Clock.zfill w n) = Some n.
Proof.
  unfold Clock.zfill. induction (w - String.length (Clock.digits n)) as [|k IH].
  - apply numeral_value_digits.
  - cbn [Clock.zeros]. by rewrite append_cons, numeral_value_zero.
Qed.

Lemma zeros_length (k : nat) : String.length (Clock.zeros k) = k.
Proof. induction k as [|k IH]; simpl; [reflexivity | by rewrite IH]. Qed.

Lemma zfill_length (w n : nat) :
  String.length (Clock.digits n) ≤ w → String.length (Clock.zfill w n) = w.
Proof. intros H. unfold Clock.zfill. rewrite append_length, zeros_length. lia. Qed.

Lemma digits_length_checked (w b : nat) :
  forallb (λ n, String.length (Clock.digits n) <=? w) (seq 0 b) = true →
  ∀ n, n < b → String.length (Clock.digits n) ≤ w.
Proof.
  intros Hall n Hn. rewrite forallb_forall in Hall.
  apply Nat.leb_le, Hall, in_seq. lia.
Qed.

Lemma digits_length_2 (n : nat) : n < 100 → String.length (Clock.digits n) ≤ 2.
Proof. apply digits_length_checked. vm_compute. reflexivity. Qed.

Lemma digits_length_4 (n : nat) : n < 10 ^ 4 → String.length (Clock.digits n) ≤ 4.
Proof. apply digits_length_checked. vm_compute. reflexivity. Qed.

Lemma append_inj_length (a a' b b' : string) :
  String.length a = String.length a' → a +:+ b = a' +:+ b' → a = a' ∧ b = b'.
Proof.
  revert a'. induction a as [|c a IH]; intros [|c' a'] Hlen H; str_norm;
    try discriminate.
  - done.
  - injection H as -> H. injection Hlen as Hlen.
    destruct (IH a' Hlen H) as [-> ->]. done.
Qed.

Lemma zfill_inj (w n m : nat) : Clock.zfill w n = Clock.zfill w m → n = m.
Proof.
  intros H. apply (f_equal numeral_value) in H.
  rewrite !numeral_value_zfill in H. congruence.
Qed.

Lemma strftime_same_second (d1 d2 : Clock.datetime) :
  calendar d1 → calendar d2 →
  Clock.strftime_YmdHMS d1 = Clock.strftime_YmdHMS d2 → same_second d1 d2.
Proof.
  unfold calendar, Clock.strftime_YmdHMS.
  intros (Hy & Hm & Hd & Hh & Hmi & Hs & _) (Hy' & Hm' & Hd' & Hh' & Hmi' & Hs' & _) H.
  apply append_inj_length in H as [Hyear H];
    [|rewrite !zfill_length; [reflexivity | apply digits_length_4; lia ..]].
  apply append_inj_length in H as [Hmonth H];
    [|rewrite !zfill_length; [reflexivity | apply digits_length_2; lia ..]].
  apply append_inj_length in H as [Hday H];
    [|rewrite !zfill_length; [reflexivity | apply digits_length_2; lia ..]].
  apply append_inj_length in H as [Hhour H];
    [|rewrite !zfill_length; [reflexivity | apply digits_length_2; lia ..]].
  apply append_inj_length in H as [Hminute Hsecond];
    [|rewrite !zfill_length; [reflexivity | apply digits_length_2; lia ..]].
  unfold same_second.
  apply zfill_inj in Hyear, Hmonth, Hday, Hhour, Hminute, Hsecond. done.
Qed.

Lemma strftime_of_same_second (d1 d2 : Clock.datetime) :
  same_second d1 d2 → Clock.strftime_YmdHMS d1 = Clock.strftime_YmdHMS d2.
Proof.
  unfold same_second, Clock.strftime_YmdHMS.
  by intros (-> & -> & -> & -> & -> & ->).
Qed.

(** X16. Generated audit ids have a granularity of exactly one second.  Two
    clock readings within the same second give the same audit id, and
    hence, for one customer, the same document id; two calendar readings in
    different seconds give different audit ids and different document
    ids. *)
Theorem audit_id_one_second_granularity
    (a b c d e f g a' c' d' e' f' g' : string) (clk1 clk2 : Clock.t) :
  let r1 := (__init__ a b c d e f g None clk1).1 in
  let r2 := (__init__ a' b c' d' e' f' g' None clk2).1 in
  (same_second (next_reading clk1) (next_reading clk2) →
     audit_id r1 = audit_id r2 ∧ id r1 = id r2) ∧
  (calendar (next_reading clk1) → calendar (next_reading clk2) →
     (audit_id r1 = audit_id r2 ∨ id r1 = id r2) →
     same_second (next_reading clk1) (next_reading clk2)).
Proof.
  rewrite !init_generated. cbn [fst audit_id id]. split.
  - intros Hsame. by rewrite (strftime_of_same_second _ _ Hsame).
  - intros Hc1 Hc2 Heq. apply strftime_same_second; [done | done |].
    destruct Heq as [Heq|Heq].
    + by apply (inj (String.append "AUD")) in Heq.
    + apply (inj (String.append b)) in Heq.
      apply (inj (String.append "_")) in Heq.
      by apply (inj (String.append "AUD")) in Heq.
Qed.

Lemma audit_id_one_second_granularity_witness :
  same_second (next_reading Scenario.frozen)
    (next_reading (Clock.utcnow (Clock.utcnow Scenario.frozen).2).2) ∧
  id (__init__ "CUST1_001" "CUST1" "Ann" "intake" "pending" "received" "bot"
        None Scenario.frozen).1
  = id (__init__ "CUST1_777" "CUST1" "Bob" "payout" "failed" "timeout" "agent9"
          None (Clock.utcnow (Clock.utcnow Scenario.frozen).2).2).1.
Proof.
  assert (same_second (next_reading Scenario.frozen)
            (next_reading (Clock.utcnow (Clock.utcnow Scenario.frozen).2).2)) as Hsame
    by (by repeat split).
  split; [exact Hsame |].
  apply (audit_id_one_second_granularity
           "CUST1_001" "CUST1" "Ann" "intake" "pending" "received" "bot"
           "CUST1_777" "Bob" "payout" "failed" "timeout" "agent9"
           Scenario.frozen (Clock.utcnow (Clock.utcnow Scenario.frozen).2).2).
  exact Hsame.
Defined.

Lemma compare_refl_ascii (c : ascii) : Ascii.compare c c = Eq.
Proof. unfold Ascii.compare. apply N.compare_refl. Qed.

Lemma compare_append_prefix (p a b : string) :
  String.compare (p +:+ a) (p +:+ b) = String.compare a b.
Proof.
  induction p as [|c p IH]; str_norm; [reflexivity |].
  cbn [String.compare]. by rewrite compare_refl_ascii.
Qed.

(** X17. The time stamp strings do not always sort in the order of the
    instants.  [isoformat] omits the fraction when the microsecond is zero,
    so a record stamped exactly on the second carries a time stamp that is
    greater, as a string, than the time stamp of any record stamped later
    within that same second. *)
Theorem timestamp_order_not_chronological
    (a b c d e f g a' b' c' d' e' f' g' : string) (clk clk' : Clock.t) :
  let first := next_reading (Clock.utcnow clk).2 in
  let later := next_reading (Clock.utcnow clk').2 in
  same_second first later →
  Clock.microsecond first = 0 → 0 < Clock.microsecond later →
  String.ltb (timestamp (__init__ a' b' c' d' e' f' g' None clk').1)
             (timestamp (__init__ a b c d e f g None clk).1) = true.
Proof.
  intros first later (Hy & Hm & Hd & Hh & Hmi & Hs) Hzero Hpos.
  rewrite !init_generated. cbn [fst timestamp]. fold first later.
  unfold Clock.isoformat. rewrite <- Hy, <- Hm, <- Hd, <- Hh, <- Hmi, <- Hs, Hzero.
  destruct (Clock.microsecond later) as [|us]; [lia |].
  cbn [Nat.eqb]. unfold String.ltb.
  rewrite !append_assoc, !compare_append_prefix.
  reflexivity.
Qed.

Lemma timestamp_order_not_chronological_witness :
  same_second (next_reading (Clock.utcnow Scenario.clk0).2)
    (next_reading (Clock.utcnow Scenario.late).2) ∧
  String.ltb (timestamp (Scenario.build "CUST1_002" "CUST1" Scenario.late).1)
             (timestamp Scenario.event) = true.
Proof.
  assert (same_second (next_reading (Clock.utcnow Scenario.clk0).2)
            (next_reading (Clock.utcnow Scenario.late).2)) as Hsame
    by (by repeat split).
  split; [exact Hsame |].
  apply (timestamp_order_not_chronological
           "CUST1_001" "CUST1" "Ann" "intake" "pending" "received" "bot"
           "CUST1_002" "CUST1" "Ann" "intake" "pending" "received" "bot"
           Scenario.clk0 Scenario.late Hsame).
  - reflexivity.
  - cbn. lia.
Defined.
